(** * findings/models.py: raw and curated findings

    A shallow embedding of [src/findings/models.py]: the two model classes
    [RawFinding] and [Finding] with their [save] and [evaluate_alert_rules]
    methods, the manager's [severity_ordering], and the four signal
    receivers that write audit events and trigger the asset's risk grade.

    Conventions.
    - A Python [str] is held as a [string] whose characters are the bytes of
      its UTF-8 form (the way a string literal of this file is read), so
      [encode('utf-8')] is the list of the character codes, and equality and
      concatenation of texts are those of their byte strings.
    - Python integers are [Z]; a counter that only grows from 0 is [nat].
    - The interpreter is Python 3 (the module targets Django 2, and
      [Finding.evaluate_alert_rules] carries the Python 3 form of its
      dictionary access next to the commented-out Python 2 one).
    - Exceptions are values of [exn]; a computation that calls collaborators
      lives in the monad [M], which records the calls made so far and stops
      at the first exception. *)

From Stdlib Require Import ZArith Lia Ascii String.
From stdpp Require Import base tactics list strings gmap sorting pretty finite.

Local Open Scope Z_scope.

(** ** hashlib.sha1 (FIPS 180-4) on byte lists *)

Module Sha1.

Definition mask32 (x : Z) : Z := Z.land x 4294967295.

Definition add32 (x y : Z) : Z := mask32 (x + y).

Definition rotl (n x : Z) : Z :=
  mask32 (Z.lor (Z.shiftl x n) (Z.shiftr x (32 - n))).

(** Big-endian bytes of a [nbytes]-byte integer. *)
Fixpoint be_bytes (nbytes : nat) (x : Z) : list Z :=
  match nbytes with
  | O => []
  | S n => Z.land (Z.shiftr x (8 * Z.of_nat n)) 255 :: be_bytes n x
  end.

(** Message padding: a 1 bit, zeros up to 56 mod 64, the bit length on
    eight bytes. *)
Definition pad (msg : list Z) : list Z :=
  let len := Z.of_nat (length msg) in
  let zeros := Z.to_nat ((55 - len) mod 64) in
  msg ++ 128 :: replicate zeros 0 ++ be_bytes 8 (8 * len).

Fixpoint be_words (nwords : nat) (bytes : list Z) : list Z :=
  match nwords with
  | O => []
  | S n =>
      match bytes with
      | b0 :: b1 :: b2 :: b3 :: rest =>
          (Z.shiftl b0 24 + Z.shiftl b1 16 + Z.shiftl b2 8 + b3)
            :: be_words n rest
      | _ => []
      end
  end.

Definition f (t : nat) (b c d : Z) : Z :=
  if (t <? 20)%nat then Z.lor (Z.land b c) (Z.land (Z.lxor b 4294967295) d)
  else if (t <? 40)%nat then Z.lxor (Z.lxor b c) d
  else if (t <? 60)%nat then
    Z.lor (Z.lor (Z.land b c) (Z.land b d)) (Z.land c d)
  else Z.lxor (Z.lxor b c) d.

Definition k (t : nat) : Z :=
  if (t <? 20)%nat then 1518500249
  else if (t <? 40)%nat then 1859775393
  else if (t <? 60)%nat then 2400959708
  else 3395469782.

Record state := State { h0 : Z; h1 : Z; h2 : Z; h3 : Z; h4 : Z }.

Definition init : state :=
  State 1732584193 4023233417 2562383102 271733878 3285377520.

(** The message schedule is kept as a window of the last sixteen words,
    oldest first. *)
Definition next_word (w : list Z) : Z :=
  rotl 1 (Z.lxor (Z.lxor (w !!! 13%nat) (w !!! 8%nat))
                 (Z.lxor (w !!! 2%nat) (w !!! 0%nat))).

Fixpoint rounds (n : nat) (t : nat) (w : list Z) (s : state) : state :=
  match n with
  | O => s
  | S n' =>
      let wt := w !!! 0%nat in
      let a := h0 s in let b := h1 s in let c := h2 s in
      let d := h3 s in let e := h4 s in
      let tmp := add32 (add32 (add32 (add32 (rotl 5 a) (f t b c d)) e) (k t)) wt in
      rounds n' (S t) (drop 1 w ++ [next_word w])
             (State tmp a (rotl 30 b) c d)
  end.

Definition compress (s : state) (block : list Z) : state :=
  let r := rounds 80 0 (be_words 16 block) s in
  State (add32 (h0 s) (h0 r)) (add32 (h1 s) (h1 r)) (add32 (h2 s) (h2 r))
        (add32 (h3 s) (h3 r)) (add32 (h4 s) (h4 r)).

Fixpoint blocks (n : nat) (bytes : list Z) (s : state) : state :=
  match n with
  | O => s
  | S n' => blocks n' (drop 64 bytes) (compress s (take 64 bytes))
  end.

Definition digest (msg : list Z) : state :=
  let p := pad msg in blocks (length p / 64) p init.

Definition hex_digit (x : Z) : ascii :=
  ascii_of_N (Z.to_N (if x <? 10 then 48 + x else 87 + x)).

Fixpoint hex (ndigits : nat) (x : Z) : string :=
  match ndigits with
  | O => EmptyString
  | S n => String (hex_digit (Z.land (Z.shiftr x (4 * Z.of_nat n)) 15)) (hex n x)
  end.

Definition hex_state (s : state) : string :=
  hex 8 (h0 s) +:+ hex 8 (h1 s) +:+ hex 8 (h2 s) +:+ hex 8 (h3 s)
    +:+ hex 8 (h4 s).

Definition hexdigest (msg : list Z) : string := hex_state (digest msg).

End Sha1.

(** [s.encode('utf-8')], under the convention above. *)
Fixpoint encode_utf8 (s : string) : list Z :=
  match s with
  | EmptyString => []
  | String c rest => Z.of_N (N_of_ascii c) :: encode_utf8 rest
  end.


(** ** Exceptions, values and collaborators *)

Inductive exn :=
| StopIteration    (* next() on an exhausted iterator *)
| AttributeError   (* attribute missing on the object *)
| DoesNotExist     (* Model.objects.get found no row *)
| FieldError       (* the store cannot resolve a lookup keyword *)
| StoreError (msg : string).  (* any other failure of a store query *)

Inductive res (A : Type) :=
| Ok (a : A)
| Raise (e : exn).

Arguments Ok {A} a.
Arguments Raise {A} e.

(** Scalar values as they occur in a rule condition and in lookup keywords. *)
Inductive value :=
| VNone
| VBool (b : bool)
| VInt (z : Z)
| VStr (s : string).

#[global] Instance exn_eq_dec : EqDecision exn.
Proof. solve_decision. Defined.

#[global] Instance value_eq_dec : EqDecision value.
Proof. solve_decision. Defined.

(** [next(iter(xs))] *)
Definition next_iter {A} (xs : list A) : res A :=
  match xs with
  | x :: _ => Ok x
  | [] => Raise StopIteration
  end.

(** A dictionary in iteration order: [iter(d)] runs over the keys,
    [d.values()] over the values. *)
Definition dict := list (string * value).

Definition dict_keys (d : dict) : list string := d.*1.

Definition dict_values (d : dict) : list value := d.*2.

(** [d.itervalues()]: the attribute left dictionaries with Python 3, so the
    access raises whatever the dictionary holds. *)
Definition dict_itervalues (d : dict) : res (list value) :=
  Raise AttributeError.

(** [str(x)] for a primary key. *)
Definition str_id (id : option Z) : string :=
  match id with
  | Some k => pretty k
  | None => "None"
  end.

Definition id_value (id : option Z) : value :=
  match id with
  | Some k => VInt k
  | None => VNone
  end.

Module Asset.

(** Modelled from the spec: assets/models.py is not among the sources. An
    asset is resolved by its identifier and exposes at least a display
    [value]; its risk-grade recomputation is an operation whose body is out
    of scope, so only the call is recorded (see [call]). *)
Record t := mk { id : Z; value : string }.

End Asset.

Module Rule.

(** Modelled from the spec: rules/models.py is not among the sources. A rule
    has the fields [{enabled: bool, scope: string, trigger: string|null,
    scope_attr: string, condition: mapping}] and a [notify] operation taking
    a message, an asset and a description. *)
Record t := mk {
  enabled : bool;
  scope : string;
  trigger : option string;
  scope_attr : string;
  condition : dict
}.

(** [Rule.objects.filter(enabled=.., scope=..[, trigger=..])] over the rule
    table in iteration order; [trigger_kw = None] is the call without the
    [trigger] keyword. *)
Definition objects_filter (objects : list t) (enabled_kw : bool)
    (scope_kw : string) (trigger_kw : option string) : list t :=
  match trigger_kw with
  | None =>
      filter (λ r, enabled r = enabled_kw ∧ scope r = scope_kw) objects
  | Some tr =>
      filter (λ r, enabled r = enabled_kw ∧ scope r = scope_kw ∧
                   trigger r = Some tr) objects
  end.

End Rule.

(** Calls made on the collaborators, in the order they are made. The
    collaborators' own code is out of scope: a call is recorded and taken to
    return. *)
Inductive call :=
| Asset_calc_risk_grade (asset : Asset.t)
| Event_objects_create (message type severity : string)
| Rule_notify (rule : Rule.t) (message : string) (asset : Asset.t)
    (description : string).

(** The calls made so far, and the value returned or the exception raised. *)
Definition M (A : Type) : Type := (list call * res A)%type.

#[global] Instance M_ret : MRet M := λ A a, ([], Ok a).

#[global] Instance M_bind : MBind M := λ A B k m,
  match m with
  | (tr, Ok a) => let '(tr', r) := k a in (tr ++ tr', r)
  | (tr, Raise e) => (tr, Raise e)
  end.

Definition lift {A} (r : res A) : M A := ([], r).

Definition perform (c : call) : M unit := ([c], Ok tt).

Definition calls {A} (m : M A) : list call := m.1.

Definition outcome {A} (m : M A) : res A := m.2.

(** [Asset.objects.get(id=k)] on the asset table. *)
Definition Asset_objects_get (objects : gmap Z Asset.t) (k : Z) : M Asset.t :=
  match objects !! k with
  | Some a => mret a
  | None => lift (Raise DoesNotExist)
  end.

(** ** FindingManager *)

Module FindingManager.

(** The [Case]/[When] annotation of [severity_ordering]: the first matching
    [When] gives the value, [default] otherwise. *)
Definition severity_order (severity : string) : Z :=
  if decide (severity = "info") then 0
  else if decide (severity = "low") then 1
  else if decide (severity = "medium") then 2
  else if decide (severity = "high") then 3
  else if decide (severity = "critical") then 4
  else 0.

Section manager.

Context {row : Type}.
Variables (severity asset_name title : row → string).

(** [order_by('-severity_order', 'asset_name', 'title')]: [x] may come
    before [y]. Texts are compared by code point. *)
Definition order_by (x y : row) : Prop :=
  severity_order (severity y) < severity_order (severity x) ∨
  (severity_order (severity x) = severity_order (severity y) ∧
   ((asset_name x ≠ asset_name y ∧ (asset_name x ≤ asset_name y)%string) ∨
    (asset_name x = asset_name y ∧ (title x ≤ title y)%string))).

#[global] Instance order_by_dec : RelDecision order_by.
Proof. intros x y. unfold order_by. apply _. Defined.

(** [severity_ordering]: the rows of the table kept by the filter arguments
    it is called with, in the order above. Rows equal on all three keys
    come in an order the database chooses; the sort here is one such
    choice. *)
Definition severity_ordering (kept : row → bool) (table : list row) : list row :=
  merge_sort order_by (filter (λ x, kept x = true) table).

End manager.

End FindingManager.

(** ** RawFinding *)

Module RawFinding.

Record t := mk {
  id : option Z;  (* primary key; None until the row is inserted *)
  asset : Asset.t;  (* the related object, self.asset *)
  asset_id : Z;  (* the stored reference, self.asset_id *)
  asset_name : string;
  task_id : string;
  scan : Z;
  owner : Z;
  title : string;
  type : string;
  hash : string;
  confidence : string;
  severity : string;
  severity_num : option Z;
  scopes : list Z;
  description : string;
  solution : option string;
  raw_data : option string;
  risk_info : option string;
  vuln_refs : option string;
  links : option string;
  tags : option string;
  status : string;
  engine_type : string;
  found_at : option Z;
  checked_at : option Z;
  comments : option string;
  created_at : Z;
  updated_at : Z;
  adding : bool  (* self._state.adding *)
}.

Definition set_asset_name (v : string) (self : t) : t :=
  {| id := id self; asset := asset self; asset_id := asset_id self;
     asset_name := v; task_id := task_id self; scan := scan self;
     owner := owner self; title := title self; type := type self;
     hash := hash self; confidence := confidence self;
     severity := severity self; severity_num := severity_num self;
     scopes := scopes self; description := description self;
     solution := solution self; raw_data := raw_data self;
     risk_info := risk_info self; vuln_refs := vuln_refs self;
     links := links self; tags := tags self; status := status self;
     engine_type := engine_type self; found_at := found_at self;
     checked_at := checked_at self; comments := comments self;
     created_at := created_at self; updated_at := updated_at self;
     adding := adding self |}.

Definition set_title (v : string) (self : t) : t :=
  {| id := id self; asset := asset self; asset_id := asset_id self;
     asset_name := asset_name self; task_id := task_id self;
     scan := scan self; owner := owner self; title := v;
     type := type self; hash := hash self; confidence := confidence self;
     severity := severity self; severity_num := severity_num self;
     scopes := scopes self; description := description self;
     solution := solution self; raw_data := raw_data self;
     risk_info := risk_info self; vuln_refs := vuln_refs self;
     links := links self; tags := tags self; status := status self;
     engine_type := engine_type self; found_at := found_at self;
     checked_at := checked_at self; comments := comments self;
     created_at := created_at self; updated_at := updated_at self;
     adding := adding self |}.

Definition set_hash (v : string) (self : t) : t :=
  {| id := id self; asset := asset self; asset_id := asset_id self;
     asset_name := asset_name self; task_id := task_id self;
     scan := scan self; owner := owner self; title := title self;
     type := type self; hash := v; confidence := confidence self;
     severity := severity self; severity_num := severity_num self;
     scopes := scopes self; description := description self;
     solution := solution self; raw_data := raw_data self;
     risk_info := risk_info self; vuln_refs := vuln_refs self;
     links := links self; tags := tags self; status := status self;
     engine_type := engine_type self; found_at := found_at self;
     checked_at := checked_at self; comments := comments self;
     created_at := created_at self; updated_at := updated_at self;
     adding := adding self |}.

Definition set_severity_num (v : option Z) (self : t) : t :=
  {| id := id self; asset := asset self; asset_id := asset_id self;
     asset_name := asset_name self; task_id := task_id self;
     scan := scan self; owner := owner self; title := title self;
     type := type self; hash := hash self; confidence := confidence self;
     severity := severity self; severity_num := v; scopes := scopes self;
     description := description self; solution := solution self;
     raw_data := raw_data self; risk_info := risk_info self;
     vuln_refs := vuln_refs self; links := links self; tags := tags self;
     status := status self; engine_type := engine_type self;
     found_at := found_at self; checked_at := checked_at self;
     comments := comments self; created_at := created_at self;
     updated_at := updated_at self; adding := adding self |}.

Definition set_updated_at (v : Z) (self : t) : t :=
  {| id := id self; asset := asset self; asset_id := asset_id self;
     asset_name := asset_name self; task_id := task_id self;
     scan := scan self; owner := owner self; title := title self;
     type := type self; hash := hash self; confidence := confidence self;
     severity := severity self; severity_num := severity_num self;
     scopes := scopes self; description := description self;
     solution := solution self; raw_data := raw_data self;
     risk_info := risk_info self; vuln_refs := vuln_refs self;
     links := links self; tags := tags self; status := status self;
     engine_type := engine_type self; found_at := found_at self;
     checked_at := checked_at self; comments := comments self;
     created_at := created_at self; updated_at := v;
     adding := adding self |}.

Definition __str__ (self : t) : string :=
  str_id (id self) +:+ "/" +:+ Asset.value (asset self) +:+ "/" +:+ title self.

Definition get_risk (self : t) : string * string :=
  (severity self, confidence self).

(** [save], up to its call of [Model.save]: the result is the instance as
    it is handed to [Model.save]; [now] is the reading of [timezone.now()].
    What [Model.save] itself does is Django's and is not part of this
    function: it writes the row and, for an instance being added, assigns
    the id and clears [_state.adding]; for a stored instance it changes no
    attribute. *)
Definition save (now : Z) (self : t) : t :=
  let self :=
    set_hash (Sha1.hexdigest (encode_utf8 (asset_name self) ++
                              encode_utf8 (title self))) self in
  let self :=
    if decide (severity self = "info") then set_severity_num (Some 1) self
    else if decide (severity self = "low") then set_severity_num (Some 2) self
    else if decide (severity self = "medium") then set_severity_num (Some 3) self
    else if decide (severity self = "high") then set_severity_num (Some 4) self
    else set_severity_num (Some 0) self in
  (* update the 'updated_at' entry on each update except on creation *)
  let self := if negb (adding self) then set_updated_at now self else self in
  self.

Section rule_engine.

(** [RawFinding.objects.filter(kwargs)], the store's query: the rows found, or
    the exception the store raises for these keywords. *)
Variable objects_filter : gmap string value → res (list t).

(** The rule table behind [Rule.objects]. *)
Variable Rule_objects : list Rule.t.

(** The body of [for rule in rules], with the counter threaded through. *)
Fixpoint for_rule_in (self : t) (rules : list Rule.t) (nb_matches : nat)
    : M nat :=
  match rules with
  | [] => mret nb_matches
  | rule :: rules =>
      key ← lift (next_iter (dict_keys (Rule.condition rule)));
      values ← lift (dict_itervalues (Rule.condition rule));
      v ← lift (next_iter values);
      let kwargs : gmap string value :=
        <[Rule.scope_attr rule +:+ key := v]> {["id" := id_value (id self)]} in
      qs ← lift (objects_filter kwargs);
      if bool_decide (qs ≠ []) then
        perform (Rule_notify rule
                   ("[Asset=" +:+ Asset.value (asset self) +:+ "] " +:+ title self)
                   (asset self) (description self));;
        for_rule_in self rules (S nb_matches)
      else for_rule_in self rules nb_matches
  end.

Definition evaluate_alert_rules (self : t) (trigger : string) : M nat :=
  let rules :=
    if decide (trigger = "all") then
      Rule.objects_filter Rule_objects true "finding" None
    else Rule.objects_filter Rule_objects true "finding" (Some trigger) in
  for_rule_in self rules 0%nat.

End rule_engine.

End RawFinding.

(** [post_save] receiver for [RawFinding]. *)
Definition rawfinding_create_update_log (created : bool)
    (instance : RawFinding.t) : M unit :=
  if created then
    perform (Event_objects_create
               ("[RawFinding] New raw finding created (id=" +:+
                str_id (RawFinding.id instance) +:+ "): " +:+
                RawFinding.__str__ instance)
               "CREATE" "DEBUG")
  else
    perform (Event_objects_create
               ("[RawFinding] Raw finding '" +:+ RawFinding.__str__ instance +:+
                "' modified (id=" +:+ str_id (RawFinding.id instance) +:+ ")")
               "UPDATE" "DEBUG").

(** [post_delete] receiver for [RawFinding]. *)
Definition rawfinding_delete_log (instance : RawFinding.t) : M unit :=
  perform (Event_objects_create
             ("[RawFinding] Raw finding '" +:+ RawFinding.__str__ instance +:+
              "' deleted (id=" +:+ str_id (RawFinding.id instance) +:+ ")")
             "DELETE" "DEBUG").

(** ** Finding *)

Module Finding.

Record t := mk {
  id : option Z;  (* primary key; None until the row is inserted *)
  raw_finding : option Z;
  asset : Asset.t;  (* the related object, self.asset *)
  asset_id : Z;  (* the stored reference, self.asset_id *)
  asset_name : string;
  task_id : string;
  scan : option Z;
  owner : Z;
  title : string;
  type : string;
  hash : string;
  confidence : string;
  severity : string;
  severity_num : option Z;
  scopes : list Z;
  description : string;
  solution : option string;
  raw_data : option string;
  risk_info : option string;
  vuln_refs : option string;
  links : option string;
  tags : option string;
  status : string;
  engine_type : string;
  found_at : Z;
  comments : option string;
  checked_at : Z;
  created_at : Z;
  updated_at : Z;
  adding : bool  (* self._state.adding *)
}.

Definition set_asset_name (v : string) (self : t) : t :=
  {| id := id self; raw_finding := raw_finding self; asset := asset self;
     asset_id := asset_id self; asset_name := v; task_id := task_id self;
     scan := scan self; owner := owner self; title := title self;
     type := type self; hash := hash self; confidence := confidence self;
     severity := severity self; severity_num := severity_num self;
     scopes := scopes self; description := description self;
     solution := solution self; raw_data := raw_data self;
     risk_info := risk_info self; vuln_refs := vuln_refs self;
     links := links self; tags := tags self; status := status self;
     engine_type := engine_type self; found_at := found_at self;
     comments := comments self; checked_at := checked_at self;
     created_at := created_at self; updated_at := updated_at self;
     adding := adding self |}.

Definition set_title (v : string) (self : t) : t :=
  {| id := id self; raw_finding := raw_finding self; asset := asset self;
     asset_id := asset_id self; asset_name := asset_name self;
     task_id := task_id self; scan := scan self; owner := owner self;
     title := v; type := type self; hash := hash self;
     confidence := confidence self; severity := severity self;
     severity_num := severity_num self; scopes := scopes self;
     description := description self; solution := solution self;
     raw_data := raw_data self; risk_info := risk_info self;
     vuln_refs := vuln_refs self; links := links self; tags := tags self;
     status := status self; engine_type := engine_type self;
     found_at := found_at self; comments := comments self;
     checked_at := checked_at self; created_at := created_at self;
     updated_at := updated_at self; adding := adding self |}.

Definition set_hash (v : string) (self : t) : t :=
  {| id := id self; raw_finding := raw_finding self; asset := asset self;
     asset_id := asset_id self; asset_name := asset_name self;
     task_id := task_id self; scan := scan self; owner := owner self;
     title := title self; type := type self; hash := v;
     confidence := confidence self; severity := severity self;
     severity_num := severity_num self; scopes := scopes self;
     description := description self; solution := solution self;
     raw_data := raw_data self; risk_info := risk_info self;
     vuln_refs := vuln_refs self; links := links self; tags := tags self;
     status := status self; engine_type := engine_type self;
     found_at := found_at self; comments := comments self;
     checked_at := checked_at self; created_at := created_at self;
     updated_at := updated_at self; adding := adding self |}.

Definition set_severity_num (v : option Z) (self : t) : t :=
  {| id := id self; raw_finding := raw_finding self; asset := asset self;
     asset_id := asset_id self; asset_name := asset_name self;
     task_id := task_id self; scan := scan self; owner := owner self;
     title := title self; type := type self; hash := hash self;
     confidence := confidence self; severity := severity self;
     severity_num := v; scopes := scopes self;
     description := description self; solution := solution self;
     raw_data := raw_data self; risk_info := risk_info self;
     vuln_refs := vuln_refs self; links := links self; tags := tags self;
     status := status self; engine_type := engine_type self;
     found_at := found_at self; comments := comments self;
     checked_at := checked_at self; created_at := created_at self;
     updated_at := updated_at self; adding := adding self |}.

Definition set_updated_at (v : Z) (self : t) : t :=
  {| id := id self; raw_finding := raw_finding self; asset := asset self;
     asset_id := asset_id self; asset_name := asset_name self;
     task_id := task_id self; scan := scan self; owner := owner self;
     title := title self; type := type self; hash := hash self;
     confidence := confidence self; severity := severity self;
     severity_num := severity_num self; scopes := scopes self;
     description := description self; solution := solution self;
     raw_data := raw_data self; risk_info := risk_info self;
     vuln_refs := vuln_refs self; links := links self; tags := tags self;
     status := status self; engine_type := engine_type self;
     found_at := found_at self; comments := comments self;
     checked_at := checked_at self; created_at := created_at self;
     updated_at := v; adding := adding self |}.

Definition __str__ (self : t) : string :=
  str_id (id self) +:+ "/" +:+ title self.

Definition get_risk (self : t) : string * string :=
  (severity self, confidence self).

(** [save], up to its call of [Model.save]: the result is the instance as
    it is handed to [Model.save]; [now] is the reading of [timezone.now()].
    What [Model.save] itself does is Django's and is not part of this
    function: it writes the row and, for an instance being added, assigns
    the id and clears [_state.adding]; for a stored instance it changes no
    attribute. *)
Definition save (now : Z) (self : t) : t :=
  let self :=
    set_hash (Sha1.hexdigest (encode_utf8 (asset_name self) ++
                              encode_utf8 (title self))) self in
  let self :=
    if decide (severity self = "info") then set_severity_num (Some 1) self
    else if decide (severity self = "low") then set_severity_num (Some 2) self
    else if decide (severity self = "medium") then set_severity_num (Some 3) self
    else if decide (severity self = "high") then set_severity_num (Some 4) self
    else set_severity_num (Some 0) self in
  (* update the 'updated_at' entry on each update except on creation *)
  let self := if negb (adding self) then set_updated_at now self else self in
  self.

Section rule_engine.

(** [Finding.objects.filter(kwargs)], the store's query: the rows found, or
    the exception the store raises for these keywords. *)
Variable objects_filter : gmap string value → res (list t).

(** The rule table behind [Rule.objects]. *)
Variable Rule_objects : list Rule.t.

(** The body of [for rule in rules], with the counter threaded through. *)
Fixpoint for_rule_in (self : t) (rules : list Rule.t) (nb_matches : nat)
    : M nat :=
  match rules with
  | [] => mret nb_matches
  | rule :: rules =>
      key ← lift (next_iter (dict_keys (Rule.condition rule)));
      v ← lift (next_iter (dict_values (Rule.condition rule)));
      let kwargs : gmap string value :=
        <[Rule.scope_attr rule +:+ key := v]> {["id" := id_value (id self)]} in
      qs ← lift (objects_filter kwargs);
      if bool_decide (qs ≠ []) then
        perform (Rule_notify rule
                   ("[Asset=" +:+ Asset.value (asset self) +:+ "] " +:+ title self)
                   (asset self) (description self));;
        for_rule_in self rules (S nb_matches)
      else for_rule_in self rules nb_matches
  end.

Definition evaluate_alert_rules (self : t) (trigger : string) : M nat :=
  let rules :=
    if decide (trigger = "all") then
      Rule.objects_filter Rule_objects true "finding" None
    else Rule.objects_filter Rule_objects true "finding" (Some trigger) in
  for_rule_in self rules 0%nat.

End rule_engine.

End Finding.

(** [post_save] receiver for [Finding]. *)
Definition finding_create_update_log (created : bool)
    (instance : Finding.t) : M unit :=
  if created then
    perform (Event_objects_create
               ("[Finding] New finding created (id=" +:+
                str_id (Finding.id instance) +:+ "): " +:+
                Finding.__str__ instance)
               "CREATE" "DEBUG")
  else
    perform (Asset_calc_risk_grade (Finding.asset instance));;
    perform (Event_objects_create
               ("[Finding] Finding '" +:+ Finding.__str__ instance +:+
                "' modified (id=" +:+ str_id (Finding.id instance) +:+ ")")
               "UPDATE" "DEBUG").

(** [post_delete] receiver for [Finding]; [Asset_objects] is the asset table
    behind [Asset.objects]. *)
Definition finding_delete_log (Asset_objects : gmap Z Asset.t)
    (instance : Finding.t) : M unit :=
  asset ← Asset_objects_get Asset_objects (Finding.asset_id instance);
  perform (Asset_calc_risk_grade asset);;
  perform (Event_objects_create
             ("[Finding] Finding '" +:+ Finding.__str__ instance +:+
              "' deleted (id=" +:+ str_id (Finding.id instance) +:+ ")")
             "DELETE" "DEBUG").

(** ** Signal dispatch

    [@receiver(signal, sender=Class)] connects a receiver to the instances
    of one class: a signal sent for an instance runs the receiver of its
    class. *)

Inductive instance :=
| of_RawFinding (r : RawFinding.t)
| of_Finding (f : Finding.t).

Definition post_save_send (created : bool) (i : instance) : M unit :=
  match i with
  | of_RawFinding r => rawfinding_create_update_log created r
  | of_Finding f => finding_create_update_log created f
  end.

Definition post_delete_send (Asset_objects : gmap Z Asset.t) (i : instance)
    : M unit :=
  match i with
  | of_RawFinding r => rawfinding_delete_log r
  | of_Finding f => finding_delete_log Asset_objects f
  end.

Definition is_risk_grade_call (c : call) : bool :=
  match c with
  | Asset_calc_risk_grade _ => true
  | _ => false
  end.

(** The number of risk-grade recomputations among the calls made. *)
Definition risk_grade_calls (tr : list call) : nat :=
  length (List.filter is_risk_grade_call tr).

(** ** Sample data used by the examples *)

Module Sample.

Definition host1 : Asset.t := Asset.mk 7 "host1".

(** A raw finding read back from the store, and one not yet saved. *)
Definition raw (title severity : string) : RawFinding.t :=
  RawFinding.mk (Some 1) host1 7 "host1" "0b5d1c0e" 3 1 title "port" ""
    "firm" severity (Some 1) [] "An open port" None None None None None None
    "new" "nmap" None None (Some "n/a") 100 100 false.

Definition new_raw (title severity : string) : RawFinding.t :=
  RawFinding.mk None host1 7 "host1" "0b5d1c0e" 3 1 title "port" ""
    "firm" severity (Some 1) [] "An open port" None None None None None None
    "new" "nmap" None None (Some "n/a") 100 100 true.

Definition finding (id : Z) (title severity : string) : Finding.t :=
  Finding.mk (Some id) (Some 1) host1 7 "host1" "0b5d1c0e" (Some 3) 1 title
    "port" "" "firm" severity (Some 1) [] "An open port" None None None None
    None None "new" "nmap" 100 (Some "n/a") 100 100 100 false.

(** A store for the examples: an in-memory table of findings queried by
    exact match on a few columns; a keyword outside these columns is the
    FieldError a store raises for a name it cannot resolve. *)
Definition column (kw : string) : option (Finding.t → value) :=
  if decide (kw = "id") then Some (λ x, id_value (Finding.id x))
  else if decide (kw = "severity__exact") then
    Some (λ x, VStr (Finding.severity x))
  else if decide (kw = "title__exact") then Some (λ x, VStr (Finding.title x))
  else if decide (kw = "status__exact") then
    Some (λ x, VStr (Finding.status x))
  else None.

Definition objects_filter (table : list Finding.t)
    (kwargs : gmap string value) : res (list Finding.t) :=
  let kws := map_to_list kwargs in
  if forallb (λ kv, bool_decide (is_Some (column kv.1))) kws then
    Ok (List.filter
          (λ x, forallb (λ kv, match column kv.1 with
                               | Some col => bool_decide (col x = kv.2)
                               | None => false
                               end) kws)
          table)
  else Raise FieldError.

Definition rule (scope_attr key : string) (v : value) : Rule.t :=
  Rule.mk true "finding" (Some "auto") scope_attr [(key, v)].

End Sample.

(** [RawFinding.objects] and [Finding.objects] are both a
    [FindingManager]. *)
Definition RawFinding_objects_severity_ordering :=
  FindingManager.severity_ordering
    RawFinding.severity RawFinding.asset_name RawFinding.title.

Definition Finding_objects_severity_ordering :=
  FindingManager.severity_ordering
    Finding.severity Finding.asset_name Finding.title.

(** ** Statements shared by the properties below *)

(** The keywords of the store lookup made for a rule, as the spec writes
    them: the instance's id under "id", and the rule's value under the scope
    attribute followed by the condition key. *)
Definition lookup_kwargs (id : option Z) (rule : Rule.t) (key : string)
    (v : value) : gmap string value :=
  <[Rule.scope_attr rule +:+ key := v]> {["id" := id_value id]}.

(** The store lookup a rule stands for on a Finding: the first entry of its
    condition decides keyword and value; without a first entry there is no
    lookup. *)
Definition rule_lookup (objects_filter : gmap string value → res (list Finding.t))
    (self : Finding.t) (rule : Rule.t) : res (list Finding.t) :=
  match Rule.condition rule with
  | [] => Raise StopIteration
  | (key, v) :: _ => objects_filter (lookup_kwargs (Finding.id self) rule key v)
  end.

(** A rule matches when its lookup returns at least one row. *)
Definition rule_matches (objects_filter : gmap string value → res (list Finding.t))
    (self : Finding.t) (rule : Rule.t) : bool :=
  match rule_lookup objects_filter self rule with
  | Ok (_ :: _) => true
  | _ => false
  end.

(** The rules an evaluation with a given trigger is about. *)
Definition candidate_rules (Rule_objects : list Rule.t) (trigger : string)
    : list Rule.t :=
  filter (λ r, Rule.enabled r = true ∧ Rule.scope r = "finding" ∧
               (trigger = "all" ∨ Rule.trigger r = Some trigger))
         Rule_objects.

(** The notification sent for a rule that matches a Finding. *)
Definition notification (self : Finding.t) (rule : Rule.t) : call :=
  Rule_notify rule
    ("[Asset=" +:+ Asset.value (Finding.asset self) +:+ "] " +:+
     Finding.title self)
    (Finding.asset self) (Finding.description self).

(** The rank a severity label is given on save, as a relation between the
    label and the stored number. *)
Definition rank_of_label (label : string) (num : option Z) : Prop :=
  (label = "info" → num = Some 1) ∧
  (label = "low" → num = Some 2) ∧
  (label = "medium" → num = Some 3) ∧
  (label = "high" → num = Some 4) ∧
  (label = "critical" → num = Some 0) ∧
  (label ≠ "info" → label ≠ "low" → label ≠ "medium" → label ≠ "high" →
   num = Some 0).

(** The range of a 32-bit word, and of the five words of a digest. *)
Definition word_range (x : Z) : Prop := 0 ≤ x < 2 ^ 32.

Definition state_range (s : Sha1.state) : Prop :=
  word_range (Sha1.h0 s) ∧ word_range (Sha1.h1 s) ∧ word_range (Sha1.h2 s) ∧
  word_range (Sha1.h3 s) ∧ word_range (Sha1.h4 s).

(** The five words read as one 160-bit number. *)
Definition digest_num (s : Sha1.state) : Z :=
  Sha1.h0 s * 2 ^ 128 + Sha1.h1 s * 2 ^ 96 + Sha1.h2 s * 2 ^ 64 +
  Sha1.h3 s * 2 ^ 32 + Sha1.h4 s.

(** Fixed-width binary numerals, least significant digit first: more than
    [2 ^ 160] distinct texts of 161 characters. *)
Fixpoint bits (w : nat) (i : Z) : string :=
  match w with
  | O => EmptyString
  | S w' => String (if Z.odd i then "1"%char else "0"%char) (bits w' (i / 2))
  end.

(** The audit events among the calls made, each as its type and severity. *)
Definition audit_events (tr : list call) : list (string * string) :=
  omap (λ c, match c with
             | Event_objects_create _ type severity => Some (type, severity)
             | _ => None
             end) tr.

(** Texts made of the given characters only, and texts without a slash. *)
Definition chars_in (alphabet s : string) : Prop :=
  Forall (λ c, c ∈ list_ascii_of_string alphabet) (list_ascii_of_string s).

Definition slash_free (s : string) : Prop :=
  "/"%char ∉ list_ascii_of_string s.

(** The assets whose risk grade is recomputed by the calls made, in order. *)
Definition risk_grade_assets (tr : list call) : list Asset.t :=
  omap (λ c, match c with
             | Asset_calc_risk_grade a => Some a
             | _ => None
             end) tr.

(** * Properties *)

Example sha1_empty :
  Sha1.hexdigest (encode_utf8 "") = "da39a3ee5e6b4b0d3255bfef95601890afd80709"%string.
Proof. vm_compute. reflexivity. Qed.

Example sha1_abc :
  Sha1.hexdigest (encode_utf8 "abc") = "a9993e364706816aba3e25717850c26c9cd0d89d"%string.
Proof. vm_compute. reflexivity. Qed.

Example sha1_two_blocks :
  Sha1.hexdigest
    (encode_utf8 "abcdbcdecdefdefgefghfghighijhijkijkljklmklmnlmnomnopnopq")
  = "84983e441c3bd26ebaae4aa1f95129e5e54670f1"%string.
Proof. vm_compute. reflexivity. Qed.

Example sha1_fox :
  Sha1.hexdigest (encode_utf8 "The quick brown fox jumps over the lazy dog")
  = "2fd4e1c67a2d28fced849ee1bb76e7391b93eb12"%string.
Proof. vm_compute. reflexivity. Qed.

(** ** What [save] leaves alone and what it assigns *)

Lemma RawFinding_save_hash now r :
  RawFinding.hash (RawFinding.save now r) =
  Sha1.hexdigest (encode_utf8 (RawFinding.asset_name r) ++
                  encode_utf8 (RawFinding.title r)).
Proof.
  destruct r; unfold RawFinding.save; cbn -[Sha1.hexdigest].
  repeat case_decide; destruct adding; reflexivity.
Qed.

Lemma Finding_save_hash now f :
  Finding.hash (Finding.save now f) =
  Sha1.hexdigest (encode_utf8 (Finding.asset_name f) ++
                  encode_utf8 (Finding.title f)).
Proof.
  destruct f; unfold Finding.save; cbn -[Sha1.hexdigest].
  repeat case_decide; destruct adding; reflexivity.
Qed.

(** C3. On every save of a RawFinding or of a Finding, whether it creates
    the row or updates it, the severity number handed to the store is
    computed from the severity label alone: 1 for "info", 2 for "low", 3 for
    "medium", 4 for "high", and 0 for every other label, "critical"
    included; the number stored before plays no part. *)
Theorem severity_num_on_save (now : Z) (r : RawFinding.t) (f : Finding.t) :
  rank_of_label (RawFinding.severity r)
                (RawFinding.severity_num (RawFinding.save now r)) ∧
  rank_of_label (Finding.severity f)
                (Finding.severity_num (Finding.save now f)).
Proof.
  split.
  - destruct r; unfold rank_of_label, RawFinding.save; cbn -[Sha1.hexdigest].
    repeat case_decide; destruct adding; cbn;
      repeat split; intros; congruence.
  - destruct f; unfold rank_of_label, Finding.save; cbn -[Sha1.hexdigest].
    repeat case_decide; destruct adding; cbn;
      repeat split; intros; congruence.
Qed.

Lemma severity_num_on_save_witness :
  RawFinding.severity_num
    (RawFinding.save 200 (Sample.raw "Open Port" "critical")) = Some 0 ∧
  Finding.severity_num
    (Finding.save 200 (Sample.finding 1 "Open Port" "unknown")) = Some 0.
Proof.
  pose proof (severity_num_on_save 200 (Sample.raw "Open Port" "critical")
                (Sample.finding 1 "Open Port" "unknown")) as [Hr Hf].
  destruct Hr as (_ & _ & _ & _ & Hcritical & _).
  destruct Hf as (_ & _ & _ & _ & _ & Hother).
  split.
  - apply Hcritical. reflexivity.
  - apply Hother; discriminate.
Defined.

(** C8. On every save of a RawFinding or of a Finding that is an update
    (the instance is no longer being added) the updated-at timestamp is
    set to the current time; on the save that creates the row it is left as
    it was; and no save changes the created-at timestamp. *)
Theorem timestamps_on_save (now : Z) (r : RawFinding.t) (f : Finding.t) :
  (RawFinding.adding r = false →
   RawFinding.updated_at (RawFinding.save now r) = now) ∧
  (RawFinding.adding r = true →
   RawFinding.updated_at (RawFinding.save now r) = RawFinding.updated_at r) ∧
  RawFinding.created_at (RawFinding.save now r) = RawFinding.created_at r ∧
  (Finding.adding f = false →
   Finding.updated_at (Finding.save now f) = now) ∧
  (Finding.adding f = true →
   Finding.updated_at (Finding.save now f) = Finding.updated_at f) ∧
  Finding.created_at (Finding.save now f) = Finding.created_at f.
Proof.
  destruct r, f; unfold RawFinding.save, Finding.save; cbn -[Sha1.hexdigest].
  repeat case_decide; destruct adding, adding0; cbn;
    repeat split; intros; congruence.
Qed.

Lemma timestamps_on_save_witness :
  RawFinding.updated_at
    (RawFinding.save 200 (Sample.new_raw "Open Port" "low")) = 100 ∧
  Finding.updated_at
    (Finding.save 200 (Sample.finding 1 "Open Port" "low")) = 200.
Proof.
  pose proof (timestamps_on_save 200 (Sample.new_raw "Open Port" "low")
                (Sample.finding 1 "Open Port" "low"))
    as (_ & Hcreate & _ & Hupdate & _ & _).
  split.
  - apply Hcreate. reflexivity.
  - apply Hupdate. reflexivity.
Defined.

(** ** Signal receivers *)

Lemma risk_grade_calls_length (tr : list call) :
  risk_grade_calls tr = length (risk_grade_assets tr).
Proof.
  unfold risk_grade_calls, risk_grade_assets.
  induction tr as [|c tr IH]; [done|]. destruct c; cbn; by rewrite ?IH.
Qed.

(** C1, as stated, fails: not every delete of a Finding recomputes a risk
    grade once. With no asset under the finding's stored reference the
    post-delete receiver raises before the recomputation, which is called
    no time. *)
Lemma delete_without_asset_recomputes_nothing :
  risk_grade_calls
    (calls (post_delete_send ∅
              (of_Finding (Sample.finding 1 "Open Port" "low")))) = 0%nat ∧
  risk_grade_calls
    (calls (post_delete_send ∅
              (of_Finding (Sample.finding 1 "Open Port" "low")))) ≠ 1%nat.
Proof. split; vm_compute; [reflexivity | discriminate]. Qed.

(** C1, amended. For a Finding, the post-save receiver recomputes no risk
    grade when the save created the row, and exactly one, that of the
    finding's own asset, when the save updated it. The post-delete receiver
    recomputes exactly one, that of the asset found under the finding's
    stored reference, when that reference resolves; when it does not, the
    receiver raises and recomputes none. For a RawFinding no receiver, on
    create, update or delete, recomputes any. (The list of recomputed
    assets has as many entries as there are recomputation calls, by
    [risk_grade_calls_length].) *)
Theorem risk_grade_recomputation_by_signal
    (Asset_objects : gmap Z Asset.t) (f : Finding.t) (r : RawFinding.t) :
  risk_grade_assets (calls (post_save_send true (of_Finding f))) = [] ∧
  risk_grade_assets (calls (post_save_send false (of_Finding f)))
    = [Finding.asset f] ∧
  (∀ a, Asset_objects !! Finding.asset_id f = Some a →
        risk_grade_assets
          (calls (post_delete_send Asset_objects (of_Finding f))) = [a] ∧
        risk_grade_calls
          (calls (post_delete_send Asset_objects (of_Finding f))) = 1%nat) ∧
  (Asset_objects !! Finding.asset_id f = None →
   risk_grade_assets
     (calls (post_delete_send Asset_objects (of_Finding f))) = [] ∧
   outcome (post_delete_send Asset_objects (of_Finding f))
     = Raise DoesNotExist) ∧
  risk_grade_calls (calls (post_save_send true (of_Finding f))) = 0%nat ∧
  risk_grade_calls (calls (post_save_send false (of_Finding f))) = 1%nat ∧
  (∀ created,
     risk_grade_assets (calls (post_save_send created (of_RawFinding r)))
     = [] ∧
     risk_grade_calls (calls (post_save_send created (of_RawFinding r)))
     = 0%nat) ∧
  risk_grade_assets
    (calls (post_delete_send Asset_objects (of_RawFinding r))) = [] ∧
  risk_grade_calls
    (calls (post_delete_send Asset_objects (of_RawFinding r))) = 0%nat.
Proof.
  split; [done|]. split; [done|]. split; [|split].
  - intros a Ha. cbn. unfold finding_delete_log, Asset_objects_get.
    by rewrite Ha.
  - intros Hnone. cbn. unfold finding_delete_log, Asset_objects_get.
    by rewrite Hnone.
  - split; [done|]. split; [done|]. split; [|done].
    by intros [].
Qed.

Lemma risk_grade_recomputation_by_signal_witness :
  (risk_grade_assets
     (calls (post_delete_send {[7 := Asset.mk 7 "host1.example"]}
               (of_Finding (Sample.finding 1 "Open Port" "low"))))
   = [Asset.mk 7 "host1.example"] ∧
   risk_grade_calls
     (calls (post_delete_send {[7 := Asset.mk 7 "host1.example"]}
               (of_Finding (Sample.finding 1 "Open Port" "low")))) = 1%nat) ∧
  (risk_grade_assets
     (calls (post_delete_send ∅
               (of_Finding (Sample.finding 1 "Open Port" "low")))) = [] ∧
   outcome (post_delete_send ∅
              (of_Finding (Sample.finding 1 "Open Port" "low")))
   = Raise DoesNotExist).
Proof.
  split.
  - apply (risk_grade_recomputation_by_signal
             {[7 := Asset.mk 7 "host1.example"]}
             (Sample.finding 1 "Open Port" "low")
             (Sample.raw "Open Port" "low")).
    reflexivity.
  - apply (risk_grade_recomputation_by_signal ∅
             (Sample.finding 1 "Open Port" "low")
             (Sample.raw "Open Port" "low")).
    reflexivity.
Defined.

(** C9. The post-delete receiver of a Finding looks the asset up in the
    asset table by the finding's stored reference. When no asset has that
    identifier the receiver raises the store's not-found exception to its
    caller, before any recomputation and before the audit event; when one
    has, the receiver returns normally after one recomputation on that
    asset (the one found in the table, whatever the instance's own related
    object is), followed by the DELETE event. *)
Theorem delete_resolves_asset
    (Asset_objects : gmap Z Asset.t) (f : Finding.t) :
  (Asset_objects !! Finding.asset_id f = None →
   finding_delete_log Asset_objects f = ([], Raise DoesNotExist)) ∧
  (∀ a, Asset_objects !! Finding.asset_id f = Some a →
        finding_delete_log Asset_objects f =
        ([Asset_calc_risk_grade a;
          Event_objects_create
            ("[Finding] Finding '" +:+ Finding.__str__ f +:+
             "' deleted (id=" +:+ str_id (Finding.id f) +:+ ")")
            "DELETE" "DEBUG"], Ok tt)).
Proof.
  unfold finding_delete_log, Asset_objects_get. split.
  - intros ->. reflexivity.
  - intros a ->. reflexivity.
Qed.

Lemma delete_resolves_asset_witness :
  finding_delete_log ∅ (Sample.finding 1 "Open Port" "low")
  = ([], Raise DoesNotExist) ∧
  finding_delete_log {[7 := Asset.mk 7 "host1.example"]}
    (Sample.finding 1 "Open Port" "low")
  = ([Asset_calc_risk_grade (Asset.mk 7 "host1.example");
      Event_objects_create "[Finding] Finding '1/Open Port' deleted (id=1)"
        "DELETE" "DEBUG"], Ok tt).
Proof.
  split.
  - apply (delete_resolves_asset ∅ (Sample.finding 1 "Open Port" "low")).
    reflexivity.
  - apply (delete_resolves_asset {[7 := Asset.mk 7 "host1.example"]}
             (Sample.finding 1 "Open Port" "low")).
    reflexivity.
Defined.

(** ** The dedup hash *)

Lemma encode_utf8_app a t :
  encode_utf8 (a +:+ t) = encode_utf8 a ++ encode_utf8 t.
Proof. induction a as [|c a IH]; simpl; [reflexivity | by f_equal]. Qed.

Lemma encode_utf8_inj a b : encode_utf8 a = encode_utf8 b → a = b.
Proof.
  revert b. induction a as [|c a IH]; intros [|d b]; cbn; try done.
  intros [= Hc Hab]. f_equal; [|by apply IH].
  apply N2Z.inj in Hc.
  rewrite <- (ascii_N_embedding c), <- (ascii_N_embedding d). by rewrite Hc.
Qed.

(** C10. The hash assigned on save depends on asset name and title only
    through their concatenation: two instances, raw or curated, whose asset
    name followed by title give the same text are assigned the same hash,
    at whatever time each is saved. *)
Theorem hash_depends_on_concatenation
    (now now' : Z) (r r' : RawFinding.t) (f f' : Finding.t) :
  (RawFinding.asset_name r +:+ RawFinding.title r =
   RawFinding.asset_name r' +:+ RawFinding.title r' →
   RawFinding.hash (RawFinding.save now r) =
   RawFinding.hash (RawFinding.save now' r')) ∧
  (Finding.asset_name f +:+ Finding.title f =
   Finding.asset_name f' +:+ Finding.title f' →
   Finding.hash (Finding.save now f) = Finding.hash (Finding.save now' f')) ∧
  (RawFinding.asset_name r +:+ RawFinding.title r =
   Finding.asset_name f +:+ Finding.title f →
   RawFinding.hash (RawFinding.save now r) =
   Finding.hash (Finding.save now' f)).
Proof.
  rewrite !RawFinding_save_hash, !Finding_save_hash, <- !encode_utf8_app.
  repeat split; intros ->; reflexivity.
Qed.

Lemma hash_depends_on_concatenation_witness :
  RawFinding.hash
    (RawFinding.save 200
       (RawFinding.set_asset_name "ab" (Sample.raw "c" "low"))) =
  RawFinding.hash
    (RawFinding.save 300
       (RawFinding.set_asset_name "a" (Sample.raw "bc" "high"))).
Proof.
  apply (hash_depends_on_concatenation 200 300
           (RawFinding.set_asset_name "ab" (Sample.raw "c" "low"))
           (RawFinding.set_asset_name "a" (Sample.raw "bc" "high"))
           (Sample.finding 1 "c" "low") (Sample.finding 1 "c" "low")).
  reflexivity.
Defined.

(** *** The digest takes fewer values than there are titles *)

Lemma mask32_range x : word_range (Sha1.mask32 x).
Proof.
  unfold word_range, Sha1.mask32.
  change 4294967295 with (Z.ones 32). rewrite Z.land_ones by lia.
  apply Z.mod_pos_bound. lia.
Qed.

Lemma compress_range s block : state_range (Sha1.compress s block).
Proof.
  unfold state_range, Sha1.compress, Sha1.add32.
  cbn [Sha1.h0 Sha1.h1 Sha1.h2 Sha1.h3 Sha1.h4].
  repeat split; apply mask32_range.
Qed.

Lemma blocks_range n bytes s :
  state_range s → state_range (Sha1.blocks n bytes s).
Proof.
  revert bytes s. induction n as [|n IH]; intros bytes s Hs; cbn [Sha1.blocks].
  - exact Hs.
  - apply IH, compress_range.
Qed.

Lemma digest_range msg : state_range (Sha1.digest msg).
Proof.
  apply blocks_range. unfold state_range, word_range. cbn. lia.
Qed.

Lemma digest_num_range s : state_range s → 0 ≤ digest_num s < 2 ^ 160.
Proof. unfold state_range, word_range, digest_num. lia. Qed.

Lemma digest_num_inj s s' :
  state_range s → state_range s' → digest_num s = digest_num s' → s = s'.
Proof.
  destruct s, s'. unfold state_range, word_range, digest_num. cbn.
  intros ? ? ?. f_equal; lia.
Qed.

Lemma bits_length w i : String.length (bits w i) = w.
Proof. revert i. induction w as [|w IH]; intros i; cbn; [done | by rewrite IH]. Qed.

Lemma bits_inj w i j :
  0 ≤ i < 2 ^ Z.of_nat w → 0 ≤ j < 2 ^ Z.of_nat w → bits w i = bits w j → i = j.
Proof.
  revert i j. induction w as [|w IH]; intros i j Hi Hj.
  - cbn in Hi, Hj. lia.
  - rewrite Nat2Z.inj_succ, Z.pow_succ_r in Hi, Hj by lia.
    cbn [bits]. intros [= Hodd Hrest].
    apply IH in Hrest; [|split; [apply Z.div_pos|apply Z.div_lt_upper_bound]; lia..].
    rewrite (Z.div2_odd i), (Z.div2_odd j), !Z.div2_div, Hrest.
    destruct (Z.odd i), (Z.odd j); done.
Qed.

Lemma string_length_app a b :
  String.length (a +:+ b) = (String.length a + String.length b)%nat.
Proof. induction a as [|c a IH]; simpl; [done | by rewrite IH]. Qed.

Lemma hex_length n x : String.length (Sha1.hex n x) = n.
Proof. induction n as [|n IH]; cbn; [done | by rewrite IH]. Qed.

Lemma hexdigest_length msg : String.length (Sha1.hexdigest msg) = 40%nat.
Proof.
  unfold Sha1.hexdigest, Sha1.hex_state.
  by rewrite !string_length_app, !hex_length.
Qed.

(** Between any prefix and any suffix, two different texts of 161
    characters are digested to the same value. *)
Lemma sha1_collision (pre post : list Z) :
  ∃ x x' : string,
    x ≠ x' ∧ String.length x = 161%nat ∧ String.length x' = 161%nat ∧
    Sha1.hexdigest (pre ++ encode_utf8 x ++ post) =
    Sha1.hexdigest (pre ++ encode_utf8 x' ++ post).
Proof.
  assert (∃ N : nat, Z.of_nat N = 2 ^ 160) as [N HN].
  { exists (Z.to_nat (2 ^ 160)). apply Z2Nat.id. lia. }
  pose (msg (k : nat) := pre ++ encode_utf8 (bits 161 (Z.of_nat k)) ++ post).
  pose (g (k : nat) := Z.to_nat (digest_num (Sha1.digest (msg k)))).
  destruct (nat_pigeonhole g (S N) N) as (i & j & Hij & Hg); [lia| |].
  { intros k _. unfold g.
    pose proof (digest_num_range _ (digest_range (msg k))). lia. }
  exists (bits 161 (Z.of_nat i)), (bits 161 (Z.of_nat j)).
  rewrite !bits_length. repeat split.
  - intros Hb. apply bits_inj in Hb; [lia|..].
    + change (Z.of_nat 161) with (160 + 1). rewrite Z.pow_add_r by lia. lia.
    + change (Z.of_nat 161) with (160 + 1). rewrite Z.pow_add_r by lia. lia.
  - unfold Sha1.hexdigest. f_equal.
    apply digest_num_inj; [apply digest_range..|].
    unfold g in Hg.
    pose proof (digest_num_range _ (digest_range (msg i))).
    pose proof (digest_num_range _ (digest_range (msg j))).
    apply Z2Nat.inj in Hg; [exact Hg | lia..].
Qed.

Example hash_round_trip :
  RawFinding.hash (RawFinding.save 200 (Sample.raw "Open Port" "low"))
  = "03375a12a2e2ae486e764606b08a118f97555797"%string ∧
  RawFinding.hash
    (RawFinding.save 300
       (RawFinding.set_title "Open Port 22"
          (RawFinding.save 200 (Sample.raw "Open Port" "low"))))
  = "65325fa582ce2b93153a9a015e13f6baacafba63"%string.
Proof. split; vm_compute; reflexivity. Qed.

(** Read for all texts without exception, "a change of the asset name or
    of the title, the other held fixed, changes the hash" does not hold:
    under the asset name host1, two different titles of 161 characters are
    assigned the same hash, because the digest takes at most 2 ^ 160
    values. No such pair is exhibited; whether one can be found in practice
    is a question about SHA-1 that this development does not state. *)
Lemma hash_unchanged_by_some_change :
  ¬ (∀ (now : Z) (r r' : RawFinding.t),
       (RawFinding.asset_name r ≠ RawFinding.asset_name r' ∧
        RawFinding.title r = RawFinding.title r') ∨
       (RawFinding.asset_name r = RawFinding.asset_name r' ∧
        RawFinding.title r ≠ RawFinding.title r') →
       RawFinding.hash (RawFinding.save now r) ≠
       RawFinding.hash (RawFinding.save now r')).
Proof.
  intros Hclaim.
  destruct (sha1_collision (encode_utf8 "host1") [])
    as (t & t' & Hne & _ & _ & Heq).
  rewrite !app_nil_r in Heq.
  apply (Hclaim 200 (Sample.raw t "low") (Sample.raw t' "low")).
  - right. split; [reflexivity | exact Hne].
  - rewrite !RawFinding_save_hash. exact Heq.
Qed.

(** What is proved of the hash: the hash assigned on every save of a
    RawFinding or of a Finding, creating or updating, is the SHA-1
    hexadecimal digest, 40 characters long, of the UTF-8 bytes of the asset
    name followed without delimiter by those of the title, whatever hash
    was stored before; two saves with the same asset name and the same
    title assign the same hash; and changing one of the two while the
    other is held fixed changes the byte string that is digested. *)
Theorem hash_on_save (now now' : Z) (r r' : RawFinding.t) (f f' : Finding.t) :
  RawFinding.hash (RawFinding.save now r) =
    Sha1.hexdigest (encode_utf8 (RawFinding.asset_name r) ++
                    encode_utf8 (RawFinding.title r)) ∧
  Finding.hash (Finding.save now f) =
    Sha1.hexdigest (encode_utf8 (Finding.asset_name f) ++
                    encode_utf8 (Finding.title f)) ∧
  String.length (RawFinding.hash (RawFinding.save now r)) = 40%nat ∧
  String.length (Finding.hash (Finding.save now f)) = 40%nat ∧
  (RawFinding.asset_name r = RawFinding.asset_name r' →
   RawFinding.title r = RawFinding.title r' →
   RawFinding.hash (RawFinding.save now r) =
   RawFinding.hash (RawFinding.save now' r')) ∧
  (Finding.asset_name f = Finding.asset_name f' →
   Finding.title f = Finding.title f' →
   Finding.hash (Finding.save now f) = Finding.hash (Finding.save now' f')) ∧
  ((RawFinding.asset_name r ≠ RawFinding.asset_name r' ∧
    RawFinding.title r = RawFinding.title r') ∨
   (RawFinding.asset_name r = RawFinding.asset_name r' ∧
    RawFinding.title r ≠ RawFinding.title r') →
   encode_utf8 (RawFinding.asset_name r) ++ encode_utf8 (RawFinding.title r) ≠
   encode_utf8 (RawFinding.asset_name r') ++ encode_utf8 (RawFinding.title r')) ∧
  ((Finding.asset_name f ≠ Finding.asset_name f' ∧
    Finding.title f = Finding.title f') ∨
   (Finding.asset_name f = Finding.asset_name f' ∧
    Finding.title f ≠ Finding.title f') →
   encode_utf8 (Finding.asset_name f) ++ encode_utf8 (Finding.title f) ≠
   encode_utf8 (Finding.asset_name f') ++ encode_utf8 (Finding.title f')).
Proof.
  rewrite !RawFinding_save_hash, !Finding_save_hash, !hexdigest_length.
  repeat split.
  - intros -> ->. reflexivity.
  - intros -> ->. reflexivity.
  - intros [[Ha ->] | [-> Ht]] Heq.
    + apply app_inv_tail, encode_utf8_inj in Heq. contradiction.
    + apply app_inv_head, encode_utf8_inj in Heq. contradiction.
  - intros [[Ha ->] | [-> Ht]] Heq.
    + apply app_inv_tail, encode_utf8_inj in Heq. contradiction.
    + apply app_inv_head, encode_utf8_inj in Heq. contradiction.
Qed.

Lemma hash_on_save_witness :
  encode_utf8 "host1" ++ encode_utf8 "Open Port" ≠
  encode_utf8 "host1" ++ encode_utf8 "Open Port 22".
Proof.
  apply (hash_on_save 200 300 (Sample.raw "Open Port" "low")
           (Sample.raw "Open Port 22" "low")
           (Sample.finding 1 "Open Port" "low")
           (Sample.finding 1 "Open Port" "low")).
  right. split; [reflexivity | discriminate].
Defined.

(** ** The manager's ordering *)

Section manager_facts.

Context {row : Type} (severity asset_name title : row → string).

Local Abbreviation order :=
  (FindingManager.order_by severity asset_name title).

#[local] Instance order_by_total : Total order.
Proof.
  intros x y. unfold FindingManager.order_by.
  destruct (Z.lt_trichotomy
              (FindingManager.severity_order (severity x))
              (FindingManager.severity_order (severity y)))
    as [Hlt | [Heq | Hgt]]; [right; by left | | left; by left].
  destruct (decide (asset_name x = asset_name y)) as [Ha | Ha].
  - destruct (total String.le (title x) (title y));
      [left | right]; right; split; try done; right; by split.
  - destruct (total String.le (asset_name x) (asset_name y));
      [left | right]; right; split; try done; left; split; try done.
Qed.

#[local] Instance order_by_trans : Transitive order.
Proof.
  intros x y z. unfold FindingManager.order_by.
  intros [Hxy | [Exy Hxy]] [Hyz | [Eyz Hyz]]; [left; lia..|].
  right. split; [congruence|].
  destruct Hxy as [[Nxy Lxy] | [Axy Txy]], Hyz as [[Nyz Lyz] | [Ayz Tyz]].
  - left. split; [|by etrans].
    intros E. rewrite E in Lxy.
    apply Nyz. by apply (anti_symm String.le).
  - left. rewrite <- Ayz. by split.
  - left. rewrite Axy. by split.
  - right. split; [congruence | by etrans].
Qed.

Lemma severity_ordering_sorted_perm (kept : row → bool) (table : list row) :
  FindingManager.severity_ordering severity asset_name title kept table
    ≡ₚ filter (λ x, kept x = true) table ∧
  StronglySorted order
    (FindingManager.severity_ordering severity asset_name title kept table).
Proof.
  unfold FindingManager.severity_ordering. split.
  - apply merge_sort_Permutation.
  - apply StronglySorted_merge_sort; apply _.
Qed.

End manager_facts.

(** C2, as stated, fails: findings of severities low, critical, info, high
    with the same asset name and title come out as critical, high, low,
    info, not as high, low, info, critical. *)
Lemma severity_ordering_critical_first :
  Finding.severity <$>
    Finding_objects_severity_ordering (λ _, true)
      [Sample.finding 1 "Open Port" "low";
       Sample.finding 2 "Open Port" "critical";
       Sample.finding 3 "Open Port" "info";
       Sample.finding 4 "Open Port" "high"]
  = ["critical"; "high"; "low"; "info"]%string ∧
  Finding.severity <$>
    Finding_objects_severity_ordering (λ _, true)
      [Sample.finding 1 "Open Port" "low";
       Sample.finding 2 "Open Port" "critical";
       Sample.finding 3 "Open Port" "info";
       Sample.finding 4 "Open Port" "high"]
  ≠ ["high"; "low"; "info"; "critical"]%string.
Proof. split; vm_compute; [reflexivity | discriminate]. Qed.

(** Any listing of the kept rows that respects the order is the one
    computed here, as soon as no two kept rows agree on all three keys. *)
Lemma severity_ordering_unique {row : Type}
    (severity asset_name title : row → string)
    (kept : row → bool) (table out : list row) :
  (∀ x y, x ∈ out → y ∈ out →
          FindingManager.order_by severity asset_name title x y →
          FindingManager.order_by severity asset_name title y x → x = y) →
  out ≡ₚ filter (λ x, kept x = true) table →
  StronglySorted (FindingManager.order_by severity asset_name title) out →
  out = FindingManager.severity_ordering severity asset_name title kept table.
Proof.
  intros Hanti Hperm Hsorted.
  destruct (severity_ordering_sorted_perm severity asset_name title kept table)
    as [Hp Hs].
  assert (out ≡ₚ FindingManager.severity_ordering
                   severity asset_name title kept table) as Hout
    by (by rewrite Hperm, Hp).
  apply (StronglySorted_unique_strong
           (FindingManager.order_by severity asset_name title)); try done.
  intros x y Hx Hy. apply Hanti; [done|]. by rewrite Hout.
Qed.

(** C2, amended. The manager's ordering returns the rows kept by its filter,
    each as often as it is kept, arranged so that of any two rows the
    earlier one has the larger severity order, or the same severity order
    and the smaller asset name, or the same of both and a title that is not
    larger. The severity order is the ordering's own table, info 0, low 1,
    medium 2, high 3, critical 4 and 0 for any other label; findings of
    severities low, critical, info, high with equal asset name and title
    come out as critical, high, low, info. *)
Theorem severity_ordering_by_own_table
    (kept_raw : RawFinding.t → bool) (raws : list RawFinding.t)
    (kept : Finding.t → bool) (findings : list Finding.t) :
  (FindingManager.severity_order "info" = 0 ∧
   FindingManager.severity_order "low" = 1 ∧
   FindingManager.severity_order "medium" = 2 ∧
   FindingManager.severity_order "high" = 3 ∧
   FindingManager.severity_order "critical" = 4 ∧
   ∀ label : string,
     label ∉ ["info"; "low"; "medium"; "high"; "critical"]%string →
     FindingManager.severity_order label = 0) ∧
  (RawFinding_objects_severity_ordering kept_raw raws
     ≡ₚ filter (λ x, kept_raw x = true) raws ∧
   StronglySorted
     (FindingManager.order_by
        RawFinding.severity RawFinding.asset_name RawFinding.title)
     (RawFinding_objects_severity_ordering kept_raw raws)) ∧
  (Finding_objects_severity_ordering kept findings
     ≡ₚ filter (λ x, kept x = true) findings ∧
   StronglySorted
     (FindingManager.order_by
        Finding.severity Finding.asset_name Finding.title)
     (Finding_objects_severity_ordering kept findings)) ∧
  Finding.severity <$>
    Finding_objects_severity_ordering (λ _, true)
      [Sample.finding 1 "Open Port" "low";
       Sample.finding 2 "Open Port" "critical";
       Sample.finding 3 "Open Port" "info";
       Sample.finding 4 "Open Port" "high"]
  = ["critical"; "high"; "low"; "info"]%string.
Proof.
  split; [|split; [|split]].
  - repeat split; try reflexivity.
    intros label Hlabel. unfold FindingManager.severity_order.
    repeat case_decide; try reflexivity; subst; exfalso; apply Hlabel;
      set_solver.
  - apply severity_ordering_sorted_perm.
  - apply severity_ordering_sorted_perm.
  - vm_compute. reflexivity.
Qed.

Lemma severity_ordering_by_own_table_witness :
  FindingManager.severity_order "urgent" = 0.
Proof.
  apply (severity_ordering_by_own_table (λ _, true) [] (λ _, true) []).
  intros Hin. repeat (apply elem_of_cons in Hin as [Hin | Hin]; [discriminate|]).
  by apply elem_of_nil in Hin.
Defined.

(** ** Rule evaluation *)

Section rule_engine_facts.

Variable objects_filter : gmap string value → res (list Finding.t).
Variable Rule_objects : list Rule.t.

Lemma candidate_rules_selected trigger :
  (if decide (trigger = "all") then
     Rule.objects_filter Rule_objects true "finding" None
   else Rule.objects_filter Rule_objects true "finding" (Some trigger))
  = candidate_rules Rule_objects trigger.
Proof.
  unfold candidate_rules, Rule.objects_filter.
  case_decide as Htr; apply list_filter_iff; intros r; tauto.
Qed.

(** Unless the rule's keyword is "id" itself, the lookup has two entries. *)
Lemma lookup_kwargs_entries id rule key v :
  Rule.scope_attr rule +:+ key ≠ "id" →
  lookup_kwargs id rule key v !! "id" = Some (id_value id) ∧
  lookup_kwargs id rule key v !! (Rule.scope_attr rule +:+ key) = Some v ∧
  dom (lookup_kwargs id rule key v) = {["id"; Rule.scope_attr rule +:+ key]}.
Proof.
  intros Hne. unfold lookup_kwargs. repeat split.
  - by rewrite lookup_insert_ne, lookup_singleton_eq.
  - by rewrite lookup_insert_eq.
  - rewrite dom_insert_L, dom_singleton_L. apply (comm_L (∪)).
Qed.

Lemma rule_matches_lookup self rule rows :
  rule_lookup objects_filter self rule = Ok rows →
  rule_matches objects_filter self rule = bool_decide (rows ≠ []).
Proof. unfold rule_matches. intros ->. by destruct rows. Qed.

(** One turn of the loop. *)
Lemma for_rule_in_cons self rule rules n :
  Finding.for_rule_in objects_filter self (rule :: rules) n =
  match rule_lookup objects_filter self rule with
  | Raise e => ([], Raise e)
  | Ok [] => Finding.for_rule_in objects_filter self rules n
  | Ok (_ :: _) =>
      (notification self rule
         :: calls (Finding.for_rule_in objects_filter self rules (S n)),
       outcome (Finding.for_rule_in objects_filter self rules (S n)))
  end.
Proof.
  unfold rule_lookup, lookup_kwargs. cbn [Finding.for_rule_in].
  destruct (Rule.condition rule) as [|[key v] rest]; [reflexivity|].
  cbn -[Finding.for_rule_in insert singletonM].
  destruct (objects_filter _) as [[|row rows]|e];
    cbn -[Finding.for_rule_in insert singletonM]; try reflexivity.
  - by destruct (Finding.for_rule_in objects_filter self rules n).
  - by destruct (Finding.for_rule_in objects_filter self rules (S n)).
Qed.

(** While every rule's lookup returns, the loop counts and notifies the
    matching rules in order. *)
Lemma for_rule_in_all_return self rules n :
  Forall (λ r, ∃ rows, rule_lookup objects_filter self r = Ok rows) rules →
  Finding.for_rule_in objects_filter self rules n =
  (notification self <$> List.filter (rule_matches objects_filter self) rules,
   Ok (n + length (List.filter (rule_matches objects_filter self) rules))%nat).
Proof.
  intros Hall. revert n.
  induction Hall as [|r rules [rows Hr] _ IH]; intros n.
  - cbn. by rewrite Nat.add_0_r.
  - rewrite for_rule_in_cons. cbn [List.filter].
    rewrite (rule_matches_lookup _ _ _ Hr), Hr.
    destruct rows as [|row rows]; [apply IH|].
    rewrite IH. cbn. do 2 f_equal. lia.
Qed.

(** The first rule whose lookup raises ends the loop with that exception,
    after the notifications of the matching rules before it. *)
Lemma for_rule_in_first_raise self before rule after n e :
  Forall (λ r, ∃ rows, rule_lookup objects_filter self r = Ok rows) before →
  rule_lookup objects_filter self rule = Raise e →
  Finding.for_rule_in objects_filter self (before ++ rule :: after) n =
  (notification self <$> List.filter (rule_matches objects_filter self) before,
   Raise e).
Proof.
  intros Hall Hraise. revert n.
  induction Hall as [|r rules [rows Hr] _ IH]; intros n.
  - cbn [app List.filter fmap list_fmap]. by rewrite for_rule_in_cons, Hraise.
  - rewrite <- app_comm_cons, for_rule_in_cons. cbn [List.filter].
    rewrite (rule_matches_lookup _ _ _ Hr), Hr.
    destruct rows as [|row rows]; [apply IH|].
    by rewrite IH.
Qed.

End rule_engine_facts.

Lemma rawfinding_for_rule_in_cons
    (objects_filter : gmap string value → res (list RawFinding.t))
    (self : RawFinding.t) (rule : Rule.t) (rules : list Rule.t) (n : nat) :
  RawFinding.for_rule_in objects_filter self (rule :: rules) n =
  ([], Raise (match Rule.condition rule with
              | [] => StopIteration
              | _ :: _ => AttributeError
              end)).
Proof.
  cbn [RawFinding.for_rule_in].
  by destruct (Rule.condition rule) as [|[key v] rest].
Qed.

Example one_rule_matches_one_does_not :
  Finding.evaluate_alert_rules
    (Sample.objects_filter [Sample.finding 1 "Open Port" "high"])
    [Sample.rule "severity" "__exact" (VStr "high");
     Sample.rule "title" "__exact" (VStr "Weak cipher")]
    (Sample.finding 1 "Open Port" "high") "all"
  = ([Rule_notify (Sample.rule "severity" "__exact" (VStr "high"))
        "[Asset=host1] Open Port" Sample.host1 "An open port"],
     Ok 1%nat).
Proof. vm_compute. reflexivity. Qed.

(** C5, as stated, fails: the evaluation does not return the number of
    matching rules for every rule table. With a first rule that matches and
    a second rule whose lookup the store refuses (a keyword it cannot
    resolve), the evaluation notifies the first rule and then ends with the
    store's exception, where the claim gives the count 1. *)
Lemma evaluation_raises_instead_of_counting :
  Finding.evaluate_alert_rules
    (Sample.objects_filter [Sample.finding 1 "Open Port" "high"])
    [Sample.rule "severity" "__exact" (VStr "high");
     Sample.rule "cvss" "__gte" (VInt 7)]
    (Sample.finding 1 "Open Port" "high") "all"
  = ([notification (Sample.finding 1 "Open Port" "high")
        (Sample.rule "severity" "__exact" (VStr "high"))],
     Raise FieldError) ∧
  Finding.evaluate_alert_rules
    (Sample.objects_filter [Sample.finding 1 "Open Port" "high"])
    [Sample.rule "severity" "__exact" (VStr "high");
     Sample.rule "cvss" "__gte" (VInt 7)]
    (Sample.finding 1 "Open Port" "high") "all"
  ≠ ([notification (Sample.finding 1 "Open Port" "high")
        (Sample.rule "severity" "__exact" (VStr "high"))],
     Ok 1%nat).
Proof. split; vm_compute; [reflexivity | discriminate]. Qed.

(** C5, amended. On a Finding, with a trigger, the evaluation is about the
    enabled rules of scope "finding", and only those whose trigger label is
    the given one unless the trigger is "all". Each of them is looked up in
    the store under the keywords id = the finding's id and (scope attribute
    followed by first condition key) = first condition value, and matches
    when the lookup returns a row. When every one of these rules has a
    condition entry and the store answers its lookup, the evaluation
    returns the number of matching rules, having sent, in rule order,
    exactly one notification per matching rule, with the message
    "[Asset=<asset value>] <title>", the finding's asset and its
    description. *)
Theorem evaluate_alert_rules_counts_matches
    (objects_filter : gmap string value → res (list Finding.t))
    (Rule_objects : list Rule.t) (self : Finding.t) (trigger : string) :
  Forall (λ r, ∃ rows, rule_lookup objects_filter self r = Ok rows)
         (candidate_rules Rule_objects trigger) →
  Finding.evaluate_alert_rules objects_filter Rule_objects self trigger =
  (notification self <$>
     List.filter (rule_matches objects_filter self)
                 (candidate_rules Rule_objects trigger),
   Ok (length (List.filter (rule_matches objects_filter self)
                           (candidate_rules Rule_objects trigger)))).
Proof.
  intros Hall. unfold Finding.evaluate_alert_rules.
  rewrite candidate_rules_selected.
  by rewrite (for_rule_in_all_return objects_filter self _ 0 Hall).
Qed.

Lemma evaluate_alert_rules_counts_matches_witness :
  Finding.evaluate_alert_rules
    (Sample.objects_filter [Sample.finding 1 "Open Port" "high"])
    [Sample.rule "severity" "__exact" (VStr "high");
     Sample.rule "title" "__exact" (VStr "Weak cipher")]
    (Sample.finding 1 "Open Port" "high") "auto"
  = (notification (Sample.finding 1 "Open Port" "high") <$>
       List.filter
         (rule_matches
            (Sample.objects_filter [Sample.finding 1 "Open Port" "high"])
            (Sample.finding 1 "Open Port" "high"))
         (candidate_rules
            [Sample.rule "severity" "__exact" (VStr "high");
             Sample.rule "title" "__exact" (VStr "Weak cipher")] "auto"),
     Ok (length
           (List.filter
              (rule_matches
                 (Sample.objects_filter [Sample.finding 1 "Open Port" "high"])
                 (Sample.finding 1 "Open Port" "high"))
              (candidate_rules
                 [Sample.rule "severity" "__exact" (VStr "high");
                  Sample.rule "title" "__exact" (VStr "Weak cipher")]
                 "auto")))).
Proof.
  apply evaluate_alert_rules_counts_matches.
  change (candidate_rules _ _)
    with [Sample.rule "severity" "__exact" (VStr "high");
          Sample.rule "title" "__exact" (VStr "Weak cipher")].
  repeat constructor.
  - exists [Sample.finding 1 "Open Port" "high"]. vm_compute. reflexivity.
  - exists []. vm_compute. reflexivity.
Defined.

(** C6, as stated, fails: the failure of one rule is not kept apart from
    the others. With a first rule whose lookup the store refuses (a keyword
    it cannot resolve) and a second rule that matches, the evaluation ends
    with the store's exception: the second rule is never notified and no
    count is returned, where isolation would give one notification and the
    count 1. *)
Lemma one_failing_rule_ends_evaluation :
  Finding.evaluate_alert_rules
    (Sample.objects_filter [Sample.finding 1 "Open Port" "high"])
    [Sample.rule "cvss" "__gte" (VInt 7);
     Sample.rule "severity" "__exact" (VStr "high")]
    (Sample.finding 1 "Open Port" "high") "all"
  = ([], Raise FieldError) ∧
  Finding.evaluate_alert_rules
    (Sample.objects_filter [Sample.finding 1 "Open Port" "high"])
    [Sample.rule "cvss" "__gte" (VInt 7);
     Sample.rule "severity" "__exact" (VStr "high")]
    (Sample.finding 1 "Open Port" "high") "all"
  ≠ ([notification (Sample.finding 1 "Open Port" "high")
        (Sample.rule "severity" "__exact" (VStr "high"))],
     Ok 1%nat).
Proof. split; vm_compute; [reflexivity | discriminate]. Qed.

(** C6, amended. Rule evaluation stops at the first candidate rule that
    fails and raises that rule's exception to the caller. A rule whose
    condition mapping is empty fails with StopIteration, on a Finding and
    on a RawFinding alike: it is neither skipped nor counted as a match. A
    rule whose store lookup raises fails with the store's exception. In
    both cases the notifications of the matching rules before it have been
    sent, no rule after it is evaluated, and no match count is returned. *)
Theorem first_failing_rule_ends_evaluation
    (objects_filter : gmap string value → res (list Finding.t))
    (raw_objects_filter : gmap string value → res (list RawFinding.t))
    (Rule_objects : list Rule.t) (self : Finding.t) (raw : RawFinding.t)
    (trigger : string) (before after : list Rule.t) (rule : Rule.t) :
  candidate_rules Rule_objects trigger = before ++ rule :: after →
  Forall (λ r, ∃ rows, rule_lookup objects_filter self r = Ok rows) before →
  (Rule.condition rule = [] →
   Finding.evaluate_alert_rules objects_filter Rule_objects self trigger =
   (notification self <$>
      List.filter (rule_matches objects_filter self) before,
    Raise StopIteration)) ∧
  (∀ e, rule_lookup objects_filter self rule = Raise e →
        Finding.evaluate_alert_rules objects_filter Rule_objects self trigger =
        (notification self <$>
           List.filter (rule_matches objects_filter self) before,
         Raise e)) ∧
  (before = [] → Rule.condition rule = [] →
   RawFinding.evaluate_alert_rules raw_objects_filter Rule_objects raw trigger =
   ([], Raise StopIteration)).
Proof.
  intros Hcand Hbefore.
  unfold Finding.evaluate_alert_rules, RawFinding.evaluate_alert_rules.
  rewrite candidate_rules_selected, Hcand.
  split; [|split].
  - intros Hempty. apply for_rule_in_first_raise; [done|].
    unfold rule_lookup. by rewrite Hempty.
  - intros e He. by apply for_rule_in_first_raise.
  - intros -> Hempty. cbn [app].
    by rewrite rawfinding_for_rule_in_cons, Hempty.
Qed.

Lemma first_failing_rule_ends_evaluation_witness :
  Finding.evaluate_alert_rules
    (Sample.objects_filter [Sample.finding 1 "Open Port" "high"])
    [Sample.rule "severity" "__exact" (VStr "high");
     Rule.mk true "finding" (Some "auto") "title" [];
     Sample.rule "title" "__exact" (VStr "Open Port")]
    (Sample.finding 1 "Open Port" "high") "all"
  = (notification (Sample.finding 1 "Open Port" "high") <$>
       List.filter
         (rule_matches
            (Sample.objects_filter [Sample.finding 1 "Open Port" "high"])
            (Sample.finding 1 "Open Port" "high"))
         [Sample.rule "severity" "__exact" (VStr "high")],
     Raise StopIteration).
Proof.
  apply (first_failing_rule_ends_evaluation
           (Sample.objects_filter [Sample.finding 1 "Open Port" "high"])
           (λ _, Ok []) _ (Sample.finding 1 "Open Port" "high")
           (Sample.raw "Open Port" "high") "all"
           [Sample.rule "severity" "__exact" (VStr "high")]
           [Sample.rule "title" "__exact" (VStr "Open Port")]
           (Rule.mk true "finding" (Some "auto") "title" [])).
  - reflexivity.
  - repeat constructor.
    exists [Sample.finding 1 "Open Port" "high"]. vm_compute. reflexivity.
  - reflexivity.
Defined.

(** C7. The evaluation on a RawFinding does not count anything: with one
    enabled rule of scope "finding" whose condition has an entry, and a
    store that would find the row, it raises AttributeError at the rule's
    [condition.itervalues()] before the store is asked, sends no
    notification and returns no count, while the evaluation on the Finding
    of the same data, with a store of the same answer, notifies once and
    returns 1. *)
Theorem rawfinding_evaluation_raises :
  RawFinding.evaluate_alert_rules
    (λ _, Ok [Sample.raw "Open Port" "high"])
    [Sample.rule "severity" "__exact" (VStr "high")]
    (Sample.raw "Open Port" "high") "all"
  = ([], Raise AttributeError) ∧
  Finding.evaluate_alert_rules
    (λ _, Ok [Sample.finding 1 "Open Port" "high"])
    [Sample.rule "severity" "__exact" (VStr "high")]
    (Sample.finding 1 "Open Port" "high") "all"
  = ([Rule_notify (Sample.rule "severity" "__exact" (VStr "high"))
        "[Asset=host1] Open Port" Sample.host1 "An open port"],
     Ok 1%nat).
Proof. split; vm_compute; reflexivity. Qed.

(** On a RawFinding the first candidate rule always ends the evaluation:
    every rule with a condition entry raises AttributeError. *)
Lemma rawfinding_evaluation_never_counts
    (objects_filter : gmap string value → res (list RawFinding.t))
    (Rule_objects : list Rule.t) (self : RawFinding.t) (trigger : string) :
  candidate_rules Rule_objects trigger ≠ [] →
  ∃ e, RawFinding.evaluate_alert_rules objects_filter Rule_objects self trigger
       = ([], Raise e) ∧
       (Forall (λ r, Rule.condition r ≠ []) (candidate_rules Rule_objects trigger)
        → e = AttributeError).
Proof.
  unfold RawFinding.evaluate_alert_rules. rewrite candidate_rules_selected.
  destruct (candidate_rules Rule_objects trigger) as [|rule rules]; [done|].
  intros _. rewrite rawfinding_for_rule_in_cons. eexists. split; [done|].
  intros [Hne _]%Forall_cons. by destruct (Rule.condition rule).
Qed.

(** * Further properties of the module *)

(** ** [save] *)

(** [save] in one piece: the instance with its three assigned attributes. *)
Lemma RawFinding_save_unfold now r :
  RawFinding.save now r =
  RawFinding.mk
    (RawFinding.id r)
    (RawFinding.asset r)
    (RawFinding.asset_id r)
    (RawFinding.asset_name r)
    (RawFinding.task_id r)
    (RawFinding.scan r)
    (RawFinding.owner r)
    (RawFinding.title r)
    (RawFinding.type r)
    (Sha1.hexdigest (encode_utf8 (RawFinding.asset_name r) ++
                     encode_utf8 (RawFinding.title r)))
    (RawFinding.confidence r)
    (RawFinding.severity r)
    (Some (if decide (RawFinding.severity r = "info") then 1
           else if decide (RawFinding.severity r = "low") then 2
           else if decide (RawFinding.severity r = "medium") then 3
           else if decide (RawFinding.severity r = "high") then 4
           else 0))
    (RawFinding.scopes r)
    (RawFinding.description r)
    (RawFinding.solution r)
    (RawFinding.raw_data r)
    (RawFinding.risk_info r)
    (RawFinding.vuln_refs r)
    (RawFinding.links r)
    (RawFinding.tags r)
    (RawFinding.status r)
    (RawFinding.engine_type r)
    (RawFinding.found_at r)
    (RawFinding.checked_at r)
    (RawFinding.comments r)
    (RawFinding.created_at r)
    (if RawFinding.adding r then RawFinding.updated_at r else now)
    (RawFinding.adding r).
Proof.
  destruct r; unfold RawFinding.save; cbn -[Sha1.hexdigest].
  repeat case_decide; destruct adding; reflexivity.
Qed.

(** [save] in one piece: the instance with its three assigned attributes. *)
Lemma Finding_save_unfold now f :
  Finding.save now f =
  Finding.mk
    (Finding.id f)
    (Finding.raw_finding f)
    (Finding.asset f)
    (Finding.asset_id f)
    (Finding.asset_name f)
    (Finding.task_id f)
    (Finding.scan f)
    (Finding.owner f)
    (Finding.title f)
    (Finding.type f)
    (Sha1.hexdigest (encode_utf8 (Finding.asset_name f) ++
                     encode_utf8 (Finding.title f)))
    (Finding.confidence f)
    (Finding.severity f)
    (Some (if decide (Finding.severity f = "info") then 1
           else if decide (Finding.severity f = "low") then 2
           else if decide (Finding.severity f = "medium") then 3
           else if decide (Finding.severity f = "high") then 4
           else 0))
    (Finding.scopes f)
    (Finding.description f)
    (Finding.solution f)
    (Finding.raw_data f)
    (Finding.risk_info f)
    (Finding.vuln_refs f)
    (Finding.links f)
    (Finding.tags f)
    (Finding.status f)
    (Finding.engine_type f)
    (Finding.found_at f)
    (Finding.comments f)
    (Finding.checked_at f)
    (Finding.created_at f)
    (if Finding.adding f then Finding.updated_at f else now)
    (Finding.adding f).
Proof.
  destruct f; unfold Finding.save; cbn -[Sha1.hexdigest].
  repeat case_decide; destruct adding; reflexivity.
Qed.

(** X1. For an instance that is already stored, two saves in a row leave
    the instance that the second save alone would leave: what the first
    save assigned (hash, severity number, update time) is assigned again
    from the same fields and the later clock reading. *)
Theorem save_twice (now1 now2 : Z) (r : RawFinding.t) (f : Finding.t) :
  (RawFinding.adding r = false →
   RawFinding.save now2 (RawFinding.save now1 r) = RawFinding.save now2 r) ∧
  (Finding.adding f = false →
   Finding.save now2 (Finding.save now1 f) = Finding.save now2 f).
Proof.
  rewrite !RawFinding_save_unfold, !Finding_save_unfold.
  split; intros Hadding; cbn -[Sha1.hexdigest]; by rewrite Hadding.
Qed.

Lemma save_twice_witness :
  Finding.save 300 (Finding.save 200 (Sample.finding 1 "Open Port" "low"))
  = Finding.save 300 (Sample.finding 1 "Open Port" "low").
Proof.
  apply (save_twice 200 300 (Sample.raw "Open Port" "low")
           (Sample.finding 1 "Open Port" "low")).
  reflexivity.
Defined.



(** X3. The severity number assigned by [save] and the severity order used
    by the manager's ordering differ by exactly one on the labels info,
    low, medium and high, and on no other label: for "critical" the order
    is 4 and the number 0, for any other label both are 0. *)
Theorem severity_num_and_order (now : Z) (r : RawFinding.t) (f : Finding.t) :
  (RawFinding.severity_num (RawFinding.save now r) =
     Some (FindingManager.severity_order (RawFinding.severity r) + 1)
   ↔ RawFinding.severity r ∈ ["info"; "low"; "medium"; "high"]%string) ∧
  (Finding.severity_num (Finding.save now f) =
     Some (FindingManager.severity_order (Finding.severity f) + 1)
   ↔ Finding.severity f ∈ ["info"; "low"; "medium"; "high"]%string).
Proof.
  rewrite RawFinding_save_unfold, Finding_save_unfold.
  cbn [RawFinding.severity_num Finding.severity_num].
  unfold FindingManager.severity_order. rewrite !elem_of_cons, !elem_of_nil.
  split; repeat case_decide; cbn; (split; [intros [=] | ]); tauto.
Qed.

(** ** [severity_ordering] *)

Lemma StronglySorted_lookup_lt {A} (R : relation A) (l : list A) i j x y :
  StronglySorted R l → l !! i = Some x → l !! j = Some y → (i < j)%nat →
  R x y.
Proof.
  intros Hs. revert i j. induction Hs as [|a l Hs IH Hall]; intros i j.
  - by rewrite lookup_nil.
  - destruct i as [|i], j as [|j]; cbn; intros Hi Hj Hij; try lia.
    + injection Hi as ->.
      rewrite Forall_forall in Hall. apply Hall.
      by eapply list_elem_of_lookup_2.
    + apply (IH i j); [done..|lia].
Qed.

Lemma severity_order_bounds label :
  0 ≤ FindingManager.severity_order label ≤ 4 ∧
  (FindingManager.severity_order label = 4 ↔ label = "critical"%string).
Proof.
  unfold FindingManager.severity_order.
  repeat case_decide; subst; (split; [lia|]); split; intros; congruence || lia.
Qed.

(** X4. In the result of the manager's ordering the severity order never
    goes up from one row to a later one, and every row of severity
    "critical" comes before every row of another severity. *)
Theorem severity_ordering_critical_rows_first {row : Type}
    (severity asset_name title : row → string)
    (kept : row → bool) (table : list row) (i j : nat) (x y : row) :
  FindingManager.severity_ordering severity asset_name title kept table !! i
    = Some x →
  FindingManager.severity_ordering severity asset_name title kept table !! j
    = Some y →
  (i < j)%nat →
  FindingManager.severity_order (severity y)
    ≤ FindingManager.severity_order (severity x) ∧
  (severity y = "critical"%string → severity x = "critical"%string).
Proof.
  intros Hi Hj Hij.
  destruct (severity_ordering_sorted_perm severity asset_name title kept table)
    as [_ Hsorted].
  pose proof (StronglySorted_lookup_lt _ _ _ _ _ _ Hsorted Hi Hj Hij) as Hxy.
  assert (FindingManager.severity_order (severity y)
          ≤ FindingManager.severity_order (severity x)) as Hle.
  { destruct Hxy as [Hlt | [Heq _]]; lia. }
  split; [exact Hle|]. intros Hy.
  apply severity_order_bounds.
  pose proof (severity_order_bounds (severity x)) as [Hx _].
  apply severity_order_bounds in Hy. lia.
Qed.

Lemma severity_ordering_critical_rows_first_witness :
  Finding.severity (Sample.finding 2 "Open Port" "critical") = "critical"%string.
Proof.
  apply (severity_ordering_critical_rows_first
           Finding.severity Finding.asset_name Finding.title (λ _, true)
           [Sample.finding 1 "Weak cipher" "critical";
            Sample.finding 2 "Open Port" "critical";
            Sample.finding 3 "Open Port" "low"]
           0 1 (Sample.finding 2 "Open Port" "critical")
           (Sample.finding 1 "Weak cipher" "critical")).
  - vm_compute. reflexivity.
  - vm_compute. reflexivity.
  - lia.
  - reflexivity.
Defined.

(** Two rows each allowed before the other agree on the three keys. *)
Lemma order_by_both_ways {row : Type}
    (severity asset_name title : row → string) (x y : row) :
  FindingManager.order_by severity asset_name title x y →
  FindingManager.order_by severity asset_name title y x →
  FindingManager.severity_order (severity x)
    = FindingManager.severity_order (severity y) ∧
  asset_name x = asset_name y ∧ title x = title y.
Proof.
  unfold FindingManager.order_by.
  intros [Hxy | [Exy Hxy]] [Hyx | [Eyx Hyx]]; try lia.
  split; [done|].
  destruct Hxy as [[Nxy Lxy] | [Axy Txy]], Hyx as [[Nyx Lyx] | [Ayx Tyx]];
    try congruence.
  - exfalso. apply Nxy. by apply (anti_symm String.le).
  - split; [done|]. by apply (anti_symm String.le).
Qed.

(** X5. The result of the manager's ordering does not depend on the order
    in which the table holds its rows, provided no two different rows of
    the table have the same severity order, asset name and title. *)
Theorem severity_ordering_table_order {row : Type}
    (severity asset_name title : row → string)
    (kept : row → bool) (table table' : list row) :
  (∀ x y, x ∈ table → y ∈ table →
          FindingManager.severity_order (severity x)
            = FindingManager.severity_order (severity y) →
          asset_name x = asset_name y → title x = title y → x = y) →
  table' ≡ₚ table →
  FindingManager.severity_ordering severity asset_name title kept table'
  = FindingManager.severity_ordering severity asset_name title kept table.
Proof.
  intros Hkeys Hperm.
  destruct (severity_ordering_sorted_perm severity asset_name title kept table')
    as [Hp Hs].
  apply severity_ordering_unique; [|by rewrite Hp, Hperm|done].
  intros x y Hx Hy Hxy Hyx.
  destruct (order_by_both_ways _ _ _ _ _ Hxy Hyx) as (? & ? & ?).
  rewrite Hp, Hperm in Hx, Hy.
  apply list_elem_of_filter in Hx as [_ Hx], Hy as [_ Hy]. by apply Hkeys.
Qed.

Lemma severity_ordering_table_order_witness :
  Finding_objects_severity_ordering (λ _, true)
    [Sample.finding 1 "Open Port" "low"; Sample.finding 2 "Open Port" "high"]
  = Finding_objects_severity_ordering (λ _, true)
      [Sample.finding 2 "Open Port" "high"; Sample.finding 1 "Open Port" "low"].
Proof.
  apply (severity_ordering_table_order
           Finding.severity Finding.asset_name Finding.title).
  - intros x y Hx Hy Hsev _ _.
    apply elem_of_cons in Hx as [-> | Hx];
      [|apply elem_of_cons in Hx as [-> | Hx]; [|by apply elem_of_nil in Hx]];
      (apply elem_of_cons in Hy as [-> | Hy];
       [|apply elem_of_cons in Hy as [-> | Hy]; [|by apply elem_of_nil in Hy]]);
      first [reflexivity | discriminate Hsev].
  - apply perm_swap.
Defined.

(** ** Signal receivers and the audit log *)

(** X6. Every post-save signal, for a raw or a curated finding, returns
    normally and writes exactly one audit event, of type CREATE when the
    save created the row and UPDATE otherwise, with severity DEBUG; the
    event is the last call made. A post-delete signal writes one DELETE
    event of severity DEBUG exactly when its receiver returns normally,
    and none when it raises. *)
Theorem audit_event_per_signal
    (Asset_objects : gmap Z Asset.t) (created : bool) (i : instance) :
  outcome (post_save_send created i) = Ok tt ∧
  audit_events (calls (post_save_send created i))
    = [(if created then "CREATE" else "UPDATE", "DEBUG")]%string ∧
  audit_events (drop (length (calls (post_save_send created i)) - 1)
                     (calls (post_save_send created i)))
    = [(if created then "CREATE" else "UPDATE", "DEBUG")]%string ∧
  audit_events (calls (post_delete_send Asset_objects i))
    = match outcome (post_delete_send Asset_objects i) with
      | Ok _ => [("DELETE", "DEBUG")]%string
      | Raise _ => []
      end.
Proof.
  destruct i as [r | f].
  - by destruct created.
  - repeat split; try by destruct created.
    cbn. unfold finding_delete_log, Asset_objects_get.
    by destruct (Asset_objects !! Finding.asset_id f).
Qed.

(** ** Rule evaluation, whatever the store answers *)

Section rule_engine_more.

Variable objects_filter : gmap string value → res (list Finding.t).

Lemma for_rule_in_calls self rules n :
  Forall (λ c, ∃ rule, rule ∈ rules ∧
                       rule_matches objects_filter self rule = true ∧
                       c = notification self rule)
         (calls (Finding.for_rule_in objects_filter self rules n)) ∧
  (length (calls (Finding.for_rule_in objects_filter self rules n))
     ≤ length rules)%nat ∧
  (∀ m, outcome (Finding.for_rule_in objects_filter self rules n) = Ok m →
        m = (n + length (calls (Finding.for_rule_in objects_filter self rules n)))%nat).
Proof.
  revert n. induction rules as [|rule rules IH]; intros n.
  - cbn. repeat split; [constructor | lia | intros m [= <-]; lia].
  - rewrite for_rule_in_cons.
    destruct (rule_lookup objects_filter self rule) as [[|row rows]|e] eqn:Hr.
    + destruct (IH n) as (Hc & Hl & Ho).
      repeat split; [|cbn [length]; lia|done].
      eapply Forall_impl; [exact Hc|].
      intros c (r & ? & ? & ?). exists r. by rewrite elem_of_cons; auto.
    + destruct (IH (S n)) as (Hc & Hl & Ho). cbn [calls outcome fst snd].
      repeat split.
      * constructor.
        { exists rule. rewrite elem_of_cons. unfold rule_matches.
          by rewrite Hr; auto. }
        eapply Forall_impl; [exact Hc|].
        intros c (r & ? & ? & ?). exists r. by rewrite elem_of_cons; auto.
      * cbn [length]. lia.
      * intros m Hm. apply Ho in Hm. cbn [length]. lia.
    + cbn. repeat split; [constructor | lia | done].
Qed.

(** The calls are the notifications of some of the rules, each taken at
    most as often as it is listed and in the order of the list. *)
Lemma for_rule_in_notified self rules n :
  ∃ notified,
    notified `sublist_of` rules ∧
    Forall (λ rule, rule_matches objects_filter self rule = true) notified ∧
    calls (Finding.for_rule_in objects_filter self rules n)
    = notification self <$> notified.
Proof.
  revert n. induction rules as [|rule rules IH]; intros n.
  - exists []. by repeat split.
  - rewrite for_rule_in_cons.
    destruct (rule_lookup objects_filter self rule) as [[|row rows]|e] eqn:Hr.
    + destruct (IH n) as (notified & Hsub & Hall & Hcalls).
      exists notified. repeat split; [by apply sublist_cons|done..].
    + destruct (IH (S n)) as (notified & Hsub & Hall & Hcalls).
      exists (rule :: notified). repeat split.
      * by apply sublist_skip.
      * constructor; [|done]. unfold rule_matches. by rewrite Hr.
      * cbn [calls fst fmap list_fmap]. f_equal. exact Hcalls.
    + exists []. repeat split; [apply sublist_nil_l|constructor].
Qed.

End rule_engine_more.

(** X7. Whatever the store answers and whether the evaluation returns or
    raises, the only calls a Finding's rule evaluation makes are
    notifications, each for a candidate rule whose lookup found a row: it
    never recomputes a risk grade and never writes an audit event. The
    notifications are those of a sublist of the candidate rules, so each
    candidate rule is notified at most once (as often as it is listed) and
    in rule order; there are at most as many notifications as candidate
    rules, and a returned count is the number of notifications sent. *)
Theorem evaluate_alert_rules_only_notifies
    (objects_filter : gmap string value → res (list Finding.t))
    (Rule_objects : list Rule.t) (self : Finding.t) (trigger : string) :
  Forall (λ c, ∃ rule, rule ∈ candidate_rules Rule_objects trigger ∧
                       rule_matches objects_filter self rule = true ∧
                       c = notification self rule)
         (calls (Finding.evaluate_alert_rules
                   objects_filter Rule_objects self trigger)) ∧
  (∃ notified,
     notified `sublist_of` candidate_rules Rule_objects trigger ∧
     Forall (λ rule, rule_matches objects_filter self rule = true) notified ∧
     calls (Finding.evaluate_alert_rules
              objects_filter Rule_objects self trigger)
     = notification self <$> notified) ∧
  risk_grade_calls
    (calls (Finding.evaluate_alert_rules
              objects_filter Rule_objects self trigger)) = 0%nat ∧
  audit_events
    (calls (Finding.evaluate_alert_rules
              objects_filter Rule_objects self trigger)) = [] ∧
  (length (calls (Finding.evaluate_alert_rules
                    objects_filter Rule_objects self trigger))
     ≤ length (candidate_rules Rule_objects trigger))%nat ∧
  (∀ n, outcome (Finding.evaluate_alert_rules
                   objects_filter Rule_objects self trigger) = Ok n →
        n = length (calls (Finding.evaluate_alert_rules
                             objects_filter Rule_objects self trigger))).
Proof.
  unfold Finding.evaluate_alert_rules. rewrite candidate_rules_selected.
  destruct (for_rule_in_calls objects_filter self
              (candidate_rules Rule_objects trigger) 0) as (Hc & Hl & Ho).
  split; [exact Hc|].
  split; [apply for_rule_in_notified|].
  split; [|split; [|split; [exact Hl|exact Ho]]].
  - unfold risk_grade_calls.
    generalize dependent (calls (Finding.for_rule_in objects_filter self
                             (candidate_rules Rule_objects trigger) 0)).
    intros tr Hc _ _.
    induction Hc as [|c tr (r & _ & _ & ->) _ IH]; [done|]. by cbn.
  - generalize dependent (calls (Finding.for_rule_in objects_filter self
                             (candidate_rules Rule_objects trigger) 0)).
    intros tr Hc _ _.
    induction Hc as [|c tr (r & _ & _ & ->) _ IH]; [done|]. by cbn.
Qed.

Lemma candidate_rules_idem (Rule_objects : list Rule.t) (trigger : string) :
  candidate_rules (candidate_rules Rule_objects trigger) trigger
  = candidate_rules Rule_objects trigger.
Proof.
  unfold candidate_rules. rewrite list_filter_filter.
  apply list_filter_iff. tauto.
Qed.

(** X8. Rules that are disabled, of a scope other than "finding", or (for
    a trigger other than "all") of another trigger label play no part in an
    evaluation, on a Finding or a RawFinding: two rule tables with the same
    candidate rules give the same calls and the same outcome, even when the
    rules left out are malformed. *)
Theorem evaluation_ignores_other_rules
    (objects_filter : gmap string value → res (list Finding.t))
    (raw_objects_filter : gmap string value → res (list RawFinding.t))
    (Rule_objects Rule_objects' : list Rule.t)
    (self : Finding.t) (raw : RawFinding.t) (trigger : string) :
  candidate_rules Rule_objects trigger = candidate_rules Rule_objects' trigger →
  Finding.evaluate_alert_rules objects_filter Rule_objects self trigger
  = Finding.evaluate_alert_rules objects_filter Rule_objects' self trigger ∧
  RawFinding.evaluate_alert_rules raw_objects_filter Rule_objects raw trigger
  = RawFinding.evaluate_alert_rules raw_objects_filter Rule_objects' raw trigger.
Proof.
  intros Hsame.
  unfold Finding.evaluate_alert_rules, RawFinding.evaluate_alert_rules.
  by rewrite !candidate_rules_selected, Hsame.
Qed.

Lemma evaluation_ignores_other_rules_witness :
  Finding.evaluate_alert_rules
    (Sample.objects_filter [Sample.finding 1 "Open Port" "high"])
    [Rule.mk false "finding" (Some "auto") "title" [];
     Sample.rule "severity" "__exact" (VStr "high");
     Rule.mk true "asset" (Some "auto") "cvss" [("__gte", VInt 7)]]
    (Sample.finding 1 "Open Port" "high") "auto"
  = Finding.evaluate_alert_rules
      (Sample.objects_filter [Sample.finding 1 "Open Port" "high"])
      [Sample.rule "severity" "__exact" (VStr "high")]
      (Sample.finding 1 "Open Port" "high") "auto".
Proof.
  apply (evaluation_ignores_other_rules _ (λ _, Ok []) _ _ _
           (Sample.raw "Open Port" "high")).
  reflexivity.
Defined.

(** X9. A RawFinding's rule evaluation never asks the store and never
    notifies. It returns, with the count 0, exactly when there is no
    candidate rule; otherwise it raises at the first candidate rule,
    StopIteration when that rule's condition is empty and AttributeError
    when it is not. *)
Theorem rawfinding_evaluation_outcome
    (objects_filter : gmap string value → res (list RawFinding.t))
    (Rule_objects : list Rule.t) (self : RawFinding.t) (trigger : string) :
  RawFinding.evaluate_alert_rules objects_filter Rule_objects self trigger
  = match candidate_rules Rule_objects trigger with
    | [] => ([], Ok 0%nat)
    | rule :: _ =>
        ([], Raise (match Rule.condition rule with
                    | [] => StopIteration
                    | _ :: _ => AttributeError
                    end))
    end.
Proof.
  unfold RawFinding.evaluate_alert_rules. rewrite candidate_rules_selected.
  destruct (candidate_rules Rule_objects trigger) as [|rule rules]; [done|].
  apply rawfinding_for_rule_in_cons.
Qed.

Lemma candidate_rules_sublist (Rule_objects : list Rule.t) (trigger : string) :
  candidate_rules Rule_objects trigger
    `sublist_of` candidate_rules Rule_objects "all".
Proof.
  unfold candidate_rules.
  induction Rule_objects as [|r rules IH]; [done|].
  rewrite !filter_cons.
  repeat case_decide;
    first [by apply sublist_skip | by apply sublist_cons | done | tauto].
Qed.

Lemma List_filter_sublist_length {A} (p : A → bool) (l1 l2 : list A) :
  l1 `sublist_of` l2 →
  (length (List.filter p l1) ≤ length (List.filter p l2))%nat.
Proof.
  induction 1 as [|x l1 l2 _ IH|x l1 l2 _ IH]; cbn; [done|..];
    destruct (p x); cbn; lia.
Qed.

(** X10. The rules evaluated for a trigger label are among those evaluated
    for "all", in the same order; so when every lookup of the rules for
    "all" returns, both evaluations return and the count for the label is
    at most the count for "all". *)
Theorem trigger_narrows_evaluation
    (objects_filter : gmap string value → res (list Finding.t))
    (Rule_objects : list Rule.t) (self : Finding.t) (trigger : string) :
  Forall (λ r, ∃ rows, rule_lookup objects_filter self r = Ok rows)
         (candidate_rules Rule_objects "all") →
  ∃ n m,
    outcome (Finding.evaluate_alert_rules
               objects_filter Rule_objects self trigger) = Ok n ∧
    outcome (Finding.evaluate_alert_rules
               objects_filter Rule_objects self "all") = Ok m ∧
    (n ≤ m)%nat.
Proof.
  intros Hall.
  pose proof (candidate_rules_sublist Rule_objects trigger) as Hsub.
  assert (Forall (λ r, ∃ rows, rule_lookup objects_filter self r = Ok rows)
                 (candidate_rules Rule_objects trigger)) as Htr.
  { rewrite Forall_forall in Hall |- *. intros r Hr. apply Hall.
    by eapply elem_of_sublist. }
  unfold Finding.evaluate_alert_rules. rewrite !candidate_rules_selected.
  rewrite (for_rule_in_all_return objects_filter self _ 0 Htr).
  rewrite (for_rule_in_all_return objects_filter self _ 0 Hall).
  do 2 eexists. repeat split. cbn.
  by apply List_filter_sublist_length.
Qed.

Lemma trigger_narrows_evaluation_witness :
  ∃ n m,
    outcome (Finding.evaluate_alert_rules
               (Sample.objects_filter [Sample.finding 1 "Open Port" "high"])
               [Sample.rule "severity" "__exact" (VStr "high");
                Rule.mk true "finding" (Some "manual") "title"
                  [("__exact", VStr "Open Port")]]
               (Sample.finding 1 "Open Port" "high") "manual") = Ok n ∧
    outcome (Finding.evaluate_alert_rules
               (Sample.objects_filter [Sample.finding 1 "Open Port" "high"])
               [Sample.rule "severity" "__exact" (VStr "high");
                Rule.mk true "finding" (Some "manual") "title"
                  [("__exact", VStr "Open Port")]]
               (Sample.finding 1 "Open Port" "high") "all") = Ok m ∧
    (n ≤ m)%nat.
Proof.
  apply trigger_narrows_evaluation.
  change (candidate_rules _ _)
    with [Sample.rule "severity" "__exact" (VStr "high");
          Rule.mk true "finding" (Some "manual") "title"
            [("__exact", VStr "Open Port")]].
  repeat constructor;
    exists [Sample.finding 1 "Open Port" "high"]; vm_compute; reflexivity.
Defined.

(** X11. When a rule's scope attribute followed by its first condition key
    spells "id", the rule's value takes the place of the finding's own id
    in the lookup: the store is asked for id = that value only, so the
    rule matches as soon as the store holds a row with that id, whatever
    finding is evaluated. *)
Theorem rule_on_id_replaces_own_id
    (objects_filter : gmap string value → res (list Finding.t))
    (self : Finding.t) (rule : Rule.t) (key : string) (v : value)
    (rest : dict) (row : Finding.t) (rows : list Finding.t) :
  Rule.enabled rule = true → Rule.scope rule = "finding"%string →
  Rule.condition rule = (key, v) :: rest →
  Rule.scope_attr rule +:+ key = "id"%string →
  objects_filter {["id"%string := v]} = Ok (row :: rows) →
  Finding.evaluate_alert_rules objects_filter [rule] self "all"
  = ([notification self rule], Ok 1%nat).
Proof.
  intros Hen Hsc Hcond Hid Hstore.
  unfold Finding.evaluate_alert_rules. rewrite candidate_rules_selected.
  unfold candidate_rules. rewrite filter_cons, filter_nil.
  rewrite decide_True by auto.
  rewrite for_rule_in_cons. unfold rule_lookup, lookup_kwargs.
  rewrite Hcond, Hid, insert_singleton_eq, Hstore. reflexivity.
Qed.

Lemma rule_on_id_replaces_own_id_witness :
  Finding.evaluate_alert_rules
    (Sample.objects_filter [Sample.finding 2 "Weak cipher" "low"])
    [Sample.rule "i" "d" (VInt 2)]
    (Sample.finding 1 "Open Port" "high") "all"
  = ([notification (Sample.finding 1 "Open Port" "high")
        (Sample.rule "i" "d" (VInt 2))], Ok 1%nat).
Proof.
  apply (rule_on_id_replaces_own_id _ _ _ "d" (VInt 2) []
           (Sample.finding 2 "Weak cipher" "low") []);
    reflexivity.
Defined.

Lemma List_filter_Permutation {A} (p : A → bool) (l1 l2 : list A) :
  l1 ≡ₚ l2 → List.filter p l1 ≡ₚ List.filter p l2.
Proof.
  induction 1 as [|x l1 l2 _ IH|x y l|l1 l2 l3 _ IH1 _ IH2]; cbn.
  - done.
  - destruct (p x); by rewrite IH.
  - destruct (p x), (p y); try done. apply perm_swap.
  - by etrans.
Qed.

(** X12. When every candidate rule's lookup returns, the order of the
    rule table does not matter to a Finding's evaluation: listing the
    rules in another order gives the same count and the same
    notifications, sent in another order. *)
Theorem evaluation_rule_order
    (objects_filter : gmap string value → res (list Finding.t))
    (Rule_objects Rule_objects' : list Rule.t)
    (self : Finding.t) (trigger : string) :
  Forall (λ r, ∃ rows, rule_lookup objects_filter self r = Ok rows)
         (candidate_rules Rule_objects trigger) →
  Rule_objects' ≡ₚ Rule_objects →
  outcome (Finding.evaluate_alert_rules
             objects_filter Rule_objects' self trigger)
  = outcome (Finding.evaluate_alert_rules
               objects_filter Rule_objects self trigger) ∧
  calls (Finding.evaluate_alert_rules
           objects_filter Rule_objects' self trigger)
  ≡ₚ calls (Finding.evaluate_alert_rules
              objects_filter Rule_objects self trigger).
Proof.
  intros Hall Hperm.
  assert (candidate_rules Rule_objects' trigger
          ≡ₚ candidate_rules Rule_objects trigger) as Hcand.
  { unfold candidate_rules. by rewrite Hperm. }
  assert (Forall (λ r, ∃ rows, rule_lookup objects_filter self r = Ok rows)
                 (candidate_rules Rule_objects' trigger)) as Hall'.
  { by rewrite Hcand. }
  unfold Finding.evaluate_alert_rules. rewrite !candidate_rules_selected.
  rewrite (for_rule_in_all_return objects_filter self _ 0 Hall).
  rewrite (for_rule_in_all_return objects_filter self _ 0 Hall').
  pose proof (List_filter_Permutation
                (rule_matches objects_filter self) _ _ Hcand) as Hf.
  cbn. split; [by rewrite Hf | by rewrite Hf].
Qed.

Lemma evaluation_rule_order_witness :
  outcome (Finding.evaluate_alert_rules
             (Sample.objects_filter [Sample.finding 1 "Open Port" "high"])
             [Sample.rule "title" "__exact" (VStr "Open Port");
              Sample.rule "severity" "__exact" (VStr "high")]
             (Sample.finding 1 "Open Port" "high") "all")
  = outcome (Finding.evaluate_alert_rules
               (Sample.objects_filter [Sample.finding 1 "Open Port" "high"])
               [Sample.rule "severity" "__exact" (VStr "high");
                Sample.rule "title" "__exact" (VStr "Open Port")]
               (Sample.finding 1 "Open Port" "high") "all").
Proof.
  apply evaluation_rule_order.
  - change (candidate_rules _ _)
      with [Sample.rule "severity" "__exact" (VStr "high");
            Sample.rule "title" "__exact" (VStr "Open Port")].
    repeat constructor;
      exists [Sample.finding 1 "Open Port" "high"]; vm_compute; reflexivity.
  - apply perm_swap.
Defined.

(** ** The form of the hash and of the printed names *)

Lemma list_ascii_of_string_app a b :
  list_ascii_of_string (a +:+ b)
  = list_ascii_of_string a ++ list_ascii_of_string b.
Proof. induction a as [|c a IH]; simpl; [done | by f_equal]. Qed.

Lemma chars_in_app alphabet a b :
  chars_in alphabet a → chars_in alphabet b → chars_in alphabet (a +:+ b).
Proof.
  unfold chars_in. rewrite list_ascii_of_string_app. apply Forall_app_2.
Qed.

Lemma hex_chars n x : chars_in "0123456789abcdef" (Sha1.hex n x).
Proof.
  induction n as [|n IH]; cbn [Sha1.hex]; [constructor|].
  constructor; [|exact IH].
  assert (0 ≤ Z.land (Z.shiftr x (4 * Z.of_nat n)) 15 < 16) as Hd.
  { change 15 with (Z.ones 4). rewrite Z.land_ones by lia.
    apply Z.mod_pos_bound. lia. }
  generalize dependent (Z.land (Z.shiftr x (4 * Z.of_nat n)) 15).
  intros d Hd.
  assert (d = 0 ∨ d = 1 ∨ d = 2 ∨ d = 3 ∨ d = 4 ∨ d = 5 ∨ d = 6 ∨ d = 7 ∨
          d = 8 ∨ d = 9 ∨ d = 10 ∨ d = 11 ∨ d = 12 ∨ d = 13 ∨ d = 14 ∨
          d = 15) as Hcases by lia.
  clear Hd.
  repeat (destruct Hcases as [-> | Hcases];
          [vm_compute; solve [repeat constructor]|]).
  subst. vm_compute. solve [repeat constructor].
Qed.

(** X13. The hash assigned on save is written with the characters 0 to 9
    and a to f only (lower case), for a RawFinding and for a Finding. *)
Theorem hash_is_lowercase_hex (now : Z) (r : RawFinding.t) (f : Finding.t) :
  chars_in "0123456789abcdef" (RawFinding.hash (RawFinding.save now r)) ∧
  chars_in "0123456789abcdef" (Finding.hash (Finding.save now f)).
Proof.
  rewrite RawFinding_save_hash, Finding_save_hash.
  unfold Sha1.hexdigest, Sha1.hex_state.
  split; repeat apply chars_in_app; apply hex_chars.
Qed.

Lemma pretty_N_char_numeral x :
  pretty_N_char x ∈ list_ascii_of_string "-0123456789".
Proof.
  unfold pretty_N_char. repeat case_match; vm_compute; solve [repeat constructor].
Qed.

Lemma pretty_N_go_numeral x s :
  chars_in "-0123456789" s → chars_in "-0123456789" (pretty_N_go x s).
Proof.
  revert s. induction (N.lt_wf_0 x) as [x _ IH]; intros s Hs.
  assert (x = 0 ∨ 0 < x)%N as [-> | Hpos] by lia.
  - by rewrite pretty_N_go_0.
  - rewrite pretty_N_go_step by done. apply IH; [by apply N.div_lt|].
    constructor; [apply pretty_N_char_numeral | exact Hs].
Qed.

Lemma pretty_N_numeral (x : N) : chars_in "-0123456789" (pretty x).
Proof.
  unfold pretty, pretty_N. case_decide.
  - vm_compute. repeat constructor.
  - apply pretty_N_go_numeral. constructor.
Qed.

Lemma pretty_Z_numeral (k : Z) : chars_in "-0123456789" (pretty k).
Proof.
  destruct k as [|p|p]; unfold pretty, pretty_Z.
  - vm_compute. repeat constructor.
  - apply pretty_N_numeral.
  - apply chars_in_app; [vm_compute; repeat constructor|].
    apply pretty_N_numeral.
Qed.

Lemma str_id_slash_free id : slash_free (str_id id).
Proof.
  destruct id as [k|]; unfold str_id, slash_free.
  - intros Hin. pose proof (pretty_Z_numeral k) as Hnum.
    unfold chars_in in Hnum. rewrite Forall_forall in Hnum.
    apply Hnum in Hin. vm_compute in Hin.
    repeat (apply elem_of_cons in Hin as [Hin | Hin]; [discriminate|]).
    by apply elem_of_nil in Hin.
  - vm_compute. intros Hin.
    repeat (apply elem_of_cons in Hin as [Hin | Hin]; [discriminate|]).
    by apply elem_of_nil in Hin.
Qed.

Lemma str_id_inj id id' : str_id id = str_id id' → id = id'.
Proof.
  assert (∀ k : Z, pretty k ≠ "None"%string) as Hnone.
  { intros k Hk. pose proof (pretty_Z_numeral k) as Hnum.
    rewrite Hk in Hnum. apply Forall_cons in Hnum as [Hin _].
    vm_compute in Hin.
    repeat (apply elem_of_cons in Hin as [Hin | Hin]; [discriminate|]).
    by apply elem_of_nil in Hin. }
  destruct id as [k|], id' as [k'|]; cbn; intros Heq; try done.
  - f_equal. by apply (inj pretty).
  - by apply Hnone in Heq.
  - symmetry in Heq. by apply Hnone in Heq.
Qed.

Lemma split_at_first_slash a a' t t' :
  slash_free a → slash_free a' →
  a +:+ "/" +:+ t = a' +:+ "/" +:+ t' → a = a' ∧ t = t'.
Proof.
  unfold slash_free. revert a'.
  induction a as [|c a IH]; intros [|c' a']; intros Ha Ha' Heq;
    cbn in Heq, Ha, Ha'; simplify_eq.
  - done.
  - exfalso. apply Ha'. constructor.
  - exfalso. apply Ha. constructor.
  - match goal with H : _ +:+ _ = _ +:+ _ |- _ =>
      apply IH in H as [-> ->]; [done|..] end.
    + intros Hin. apply Ha. by constructor.
    + intros Hin. apply Ha'. by constructor.
Qed.

(** X14. The printed name of a Finding, "<id>/<title>", tells its id and
    its title: two findings printed alike have the same id (or both none)
    and the same title. The printed name of a RawFinding,
    "<id>/<asset value>/<title>", tells its id and the text after it, in
    which the asset value and the title are joined by a slash. *)
Theorem printed_name_identifies
    (f f' : Finding.t) (r r' : RawFinding.t) :
  (Finding.__str__ f = Finding.__str__ f' →
   Finding.id f = Finding.id f' ∧ Finding.title f = Finding.title f') ∧
  (RawFinding.__str__ r = RawFinding.__str__ r' →
   RawFinding.id r = RawFinding.id r' ∧
   Asset.value (RawFinding.asset r) +:+ "/" +:+ RawFinding.title r
   = Asset.value (RawFinding.asset r') +:+ "/" +:+ RawFinding.title r').
Proof.
  unfold Finding.__str__, RawFinding.__str__. split; intros Heq.
  - apply split_at_first_slash in Heq as [Hid ->];
      [|apply str_id_slash_free..].
    by apply str_id_inj in Hid as ->.
  - apply split_at_first_slash in Heq as [Hid ->];
      [|apply str_id_slash_free..].
    by apply str_id_inj in Hid as ->.
Qed.

Lemma printed_name_identifies_witness :
  Finding.id (Sample.finding 4 "Open Port" "low")
  = Finding.id (Sample.finding 4 "Open Port" "high") ∧
  Finding.title (Sample.finding 4 "Open Port" "low")
  = Finding.title (Sample.finding 4 "Open Port" "high").
Proof.
  apply (printed_name_identifies
           (Sample.finding 4 "Open Port" "low")
           (Sample.finding 4 "Open Port" "high")
           (Sample.raw "Open Port" "low") (Sample.raw "Open Port" "low")).
  reflexivity.
Defined.

Example rawfinding_printed_name_ambiguous :
  RawFinding.__str__
    (RawFinding.mk (Some 1) (Asset.mk 7 "example.org/app") 7 "example.org/app"
       "0b5d1c0e" 3 1 "login" "port" "" "firm" "low" (Some 2) [] "" None None
       None None None None "new" "nmap" None None None 100 100 false)
  = RawFinding.__str__
      (RawFinding.mk (Some 1) (Asset.mk 8 "example.org") 8 "example.org"
         "0b5d1c0e" 3 1 "app/login" "port" "" "firm" "low" (Some 2) [] "" None
         None None None None None "new" "nmap" None None None 100 100 false).
Proof. reflexivity. Qed.

(** X15. A Finding's rule evaluation reads four things of the instance: its
    id, for the lookups, and its asset, title and description, for the
    notifications. Matching is decided by the store, so two instances that
    agree on these four, whatever their severity, status or other unsaved
    attributes, are evaluated alike. *)
Theorem evaluation_reads_id_asset_title_description
    (objects_filter : gmap string value → res (list Finding.t))
    (Rule_objects : list Rule.t) (self self' : Finding.t) (trigger : string) :
  Finding.id self = Finding.id self' →
  Finding.asset self = Finding.asset self' →
  Finding.title self = Finding.title self' →
  Finding.description self = Finding.description self' →
  Finding.evaluate_alert_rules objects_filter Rule_objects self trigger
  = Finding.evaluate_alert_rules objects_filter Rule_objects self' trigger.
Proof.
  intros Hid Hasset Htitle Hdescr. unfold Finding.evaluate_alert_rules.
  generalize 0%nat.
  induction (if decide (trigger = "all")
             then Rule.objects_filter Rule_objects true "finding" None
             else Rule.objects_filter Rule_objects true "finding" (Some trigger))
    as [|rule rules IH]; intros n; [done|].
  rewrite !for_rule_in_cons. unfold rule_lookup, notification.
  rewrite Hid, Hasset, Htitle, Hdescr.
  destruct (Rule.condition rule) as [|[key v] rest]; [done|].
  destruct (objects_filter _) as [[|row rows]|e]; by rewrite ?IH.
Qed.

Lemma evaluation_reads_id_asset_title_description_witness :
  Finding.evaluate_alert_rules
    (Sample.objects_filter [Sample.finding 1 "Open Port" "high"])
    [Sample.rule "severity" "__exact" (VStr "high")]
    (Sample.finding 1 "Open Port" "low") "all"
  = Finding.evaluate_alert_rules
      (Sample.objects_filter [Sample.finding 1 "Open Port" "high"])
      [Sample.rule "severity" "__exact" (VStr "high")]
      (Sample.finding 1 "Open Port" "high") "all".
Proof.
  apply evaluation_reads_id_asset_title_description; reflexivity.
Defined.
